(** * A shallow embedding of clcache's manifests, object store, statistics
    and job scheduling helpers (clcache/clcache.py, clcache/stats.py,
    clcache/errors.py). *)

From Stdlib Require Import List String Ascii ZArith QArith Lia Lqa Bool.
From Stdlib Require Import Sorted Permutation.
From Stdlib Require Import OrdersEx.
Import ListNotations.
Open Scope Z_scope.

(** ** Python exceptions raised by the embedded code *)

Inductive exn :=
| ValueError
| IndexError
| UnboundLocalError
| FileNotFoundError
| OSError
(** [CompilerFailedException(exitCode, msgErr, msgOut)] of errors.py *)
| CompilerFailedException (exitCode : Z) (msgErr msgOut : string)
| LogicException (message : string)
| AssertionError.

(** A computation that returns an [A] or raises an exception. *)
Definition res (A : Type) : Type := (exn + A)%type.

(** ** Association lists, used for JSON objects and directories *)

Section Assoc.
Context {V : Type}.

Fixpoint alookup (k : string) (m : list (string * V)) : option V :=
  match m with
  | [] => None
  | (k', v) :: m' => if String.eqb k k' then Some v else alookup k m'
  end.

Fixpoint aremove (k : string) (m : list (string * V)) : list (string * V) :=
  match m with
  | [] => []
  | (k', v) :: m' => if String.eqb k k' then aremove k m' else (k', v) :: aremove k m'
  end.

Definition aset (k : string) (v : V) (m : list (string * V)) : list (string * V) :=
  (k, v) :: aremove k m.
End Assoc.

(** ** Manifest entries and manifests (clcache.py, [ManifestEntry], [Manifest]) *)

Record ManifestEntry := mkManifestEntry {
  includeFiles : list string;
  includesContentHash : string;
  objectHash : string
}.

(** [MAX_MANIFEST_HASHES = 100]: "Manifest file will have at most this
    number of hash lists in it." *)
Definition MAX_MANIFEST_HASHES : nat := 100.

Module Manifest.

(** [addEntry]: [self._entries.insert(0, entry)]. *)
Definition addEntry (entry : ManifestEntry) (entries : list ManifestEntry)
  : list ManifestEntry :=
  entry :: entries.

(** The generator [(i for i, e in enumerate(entries) if e.objectHash == objectHash)]:
    its first element, if any. *)
Fixpoint findIndexFrom (h : string) (entries : list ManifestEntry) : option nat :=
  match entries with
  | [] => None
  | e :: es => if String.eqb (objectHash e) h then Some O else option_map S (findIndexFrom h es)
  end.

(** [next((i for i, e in enumerate(entries) if e.objectHash == objectHash), 0)] *)
Definition findIndex (h : string) (entries : list ManifestEntry) : nat :=
  match findIndexFrom h entries with
  | Some i => i
  | None => O
  end.

(** [list.pop(i)]: the removed element and the remaining list; an index
    out of range raises [IndexError]. *)
Fixpoint pop {A} (i : nat) (l : list A) : res (A * list A) :=
  match l, i with
  | [], _ => inl IndexError
  | x :: xs, O => inr (x, xs)
  | x :: xs, S i' =>
      match pop i' xs with
      | inl e => inl e
      | inr (y, ys) => inr (y, x :: ys)
      end
  end.

(** [touchEntry]:
    [entryIndex = next(..., 0)]; [self._entries.insert(0, self._entries.pop(entryIndex))]. *)
Definition touchEntry (h : string) (entries : list ManifestEntry)
  : res (list ManifestEntry) :=
  let entryIndex := findIndex h entries in
  match pop entryIndex entries with
  | inl e => inl e
  | inr (e, rest) => inr (e :: rest)
  end.

End Manifest.

(** ** Hashing and the manifest-entry builder *)

(** Python's [str.startswith]. *)
Definition startswith (s prefix : string) : bool :=
  String.prefix prefix s.

(** Python's [s.replace(old, new, 1)]: replace the first occurrence of [old];
    an empty [old] matches at position 0. *)
Fixpoint replaceFirst (old new s : string) : string :=
  if String.prefix old s then String.append new (substring (String.length old) (String.length s) s)
  else match s with
       | EmptyString => s
       | String c s' => String c (replaceFirst old new s')
       end.

(** [BASEDIR_REPLACEMENT = '?'] *)
Definition BASEDIR_REPLACEMENT : string := "?".

(** Python's [sorted(set(paths))] on strings: Python orders strings by code
    points, which on ASCII strings is [String_as_OT.compare].  The result is
    the strictly increasing list of the distinct elements, built here by
    inserting each element into a strictly sorted list. *)
Fixpoint insertUniq (x : string) (l : list string) : list string :=
  match l with
  | [] => [x]
  | y :: l' =>
      match String_as_OT.compare x y with
      | Lt => x :: y :: l'
      | Eq => y :: l'
      | Gt => y :: insertUniq x l'
      end
  end.

Definition sortedSet (l : list string) : list string :=
  fold_right insertUniq [] l.

(** [','.join(xs)] *)
Definition joinWith (sep : string) (xs : list string) : string :=
  String.concat sep xs.

Section Hashing.
(** [hashlib.md5(s.encode()).hexdigest()] *)
Variable md5 : string -> string.
(** [getFileHashCached(path)]: the md5 of the file's current contents, or
    [None] when [open] raises [FileNotFoundError]. *)
Variable fileHash : string -> option string.
(** [normalizeBaseDir(os.environ.get('CLCACHE_BASEDIR'))] *)
Variable baseDir : option string.

(** [getFileHashes(filePaths)] (local hashing branch). *)
Fixpoint getFileHashes (paths : list string) : res (list string) :=
  match paths with
  | [] => inr []
  | p :: ps =>
      match fileHash p with
      | None => inl FileNotFoundError
      | Some h =>
          match getFileHashes ps with
          | inl e => inl e
          | inr hs => inr (h :: hs)
          end
      end
  end.

(** [collapseBasedirToPlaceholder(path)]; the two [assert]s on normalized
    case hold for the callers' arguments and are not modelled. *)
Definition collapseBasedirToPlaceholder (path : string) : string :=
  match baseDir with
  | None => path
  | Some bd =>
      if startswith path bd then replaceFirst bd BASEDIR_REPLACEMENT path
      else path
  end.

(** [ManifestRepository.getIncludesContentHashForHashes] *)
Definition getIncludesContentHashForHashes (listOfHashes : list string) : string :=
  md5 (joinWith "," listOfHashes).

(** [CompilerArtifactsRepository.computeKeyDirect] = [getStringHash(manifestHash + includesContentHash)] *)
Definition computeKeyDirect (manifestHash includesContentHash : string) : string :=
  md5 (String.append manifestHash includesContentHash).

(** [createManifestEntry(manifestHash, includePaths)] *)
Definition createManifestEntry (manifestHash : string) (includePaths : list string)
  : res ManifestEntry :=
  let sortedIncludePaths := sortedSet includePaths in
  match getFileHashes sortedIncludePaths with
  | inl e => inl e
  | inr includeHashes =>
      let safeIncludes := map collapseBasedirToPlaceholder sortedIncludePaths in
      let ich := getIncludesContentHashForHashes includeHashes in
      let cachekey := computeKeyDirect manifestHash ich in
      inr (mkManifestEntry safeIncludes ich cachekey)
  end.

(** The order the spec's sentence describes: duplicates removed, each path
    kept at its first appearance (used to state the claim only). *)
Fixpoint dedupFirst (seen : list string) (l : list string) : list string :=
  match l with
  | [] => []
  | x :: xs =>
      if existsb (String.eqb x) seen then dedupFirst seen xs
      else x :: dedupFirst (x :: seen) xs
  end.
End Hashing.

(** ** Statistics (stats.py) *)

Module Stats.

(** The counters of the persistent statistics document; [__enter__]
    initialises every missing key to 0. *)
Record t := mk {
  CallsWithInvalidArgument : Z;
  CallsWithoutSourceFile : Z;
  CallsWithMultipleSourceFiles : Z;
  CallsWithPch : Z;
  CallsForLinking : Z;
  CallsForExternalDebugInfo : Z;
  CallsForPreprocessing : Z;
  CacheHits : Z;
  CacheMisses : Z;
  EvictedMisses : Z;
  HeaderChangedMisses : Z;
  SourceChangedMisses : Z;
  CacheEntries : Z;
  CacheSize : Z
}.

Definition zero : t := mk 0 0 0 0 0 0 0 0 0 0 0 0 0 0.

Definition registerCallWithInvalidArgument (s : t) : t :=
  mk (CallsWithInvalidArgument s + 1) (CallsWithoutSourceFile s) (CallsWithMultipleSourceFiles s) (CallsWithPch s) (CallsForLinking s) (CallsForExternalDebugInfo s) (CallsForPreprocessing s) (CacheHits s) (CacheMisses s) (EvictedMisses s) (HeaderChangedMisses s) (SourceChangedMisses s) (CacheEntries s) (CacheSize s).
Definition registerCallWithoutSourceFile (s : t) : t :=
  mk (CallsWithInvalidArgument s) (CallsWithoutSourceFile s + 1) (CallsWithMultipleSourceFiles s) (CallsWithPch s) (CallsForLinking s) (CallsForExternalDebugInfo s) (CallsForPreprocessing s) (CacheHits s) (CacheMisses s) (EvictedMisses s) (HeaderChangedMisses s) (SourceChangedMisses s) (CacheEntries s) (CacheSize s).
Definition registerCallWithMultipleSourceFiles (s : t) : t :=
  mk (CallsWithInvalidArgument s) (CallsWithoutSourceFile s) (CallsWithMultipleSourceFiles s + 1) (CallsWithPch s) (CallsForLinking s) (CallsForExternalDebugInfo s) (CallsForPreprocessing s) (CacheHits s) (CacheMisses s) (EvictedMisses s) (HeaderChangedMisses s) (SourceChangedMisses s) (CacheEntries s) (CacheSize s).
Definition registerCallWithPch (s : t) : t :=
  mk (CallsWithInvalidArgument s) (CallsWithoutSourceFile s) (CallsWithMultipleSourceFiles s) (CallsWithPch s + 1) (CallsForLinking s) (CallsForExternalDebugInfo s) (CallsForPreprocessing s) (CacheHits s) (CacheMisses s) (EvictedMisses s) (HeaderChangedMisses s) (SourceChangedMisses s) (CacheEntries s) (CacheSize s).
Definition registerCallForLinking (s : t) : t :=
  mk (CallsWithInvalidArgument s) (CallsWithoutSourceFile s) (CallsWithMultipleSourceFiles s) (CallsWithPch s) (CallsForLinking s + 1) (CallsForExternalDebugInfo s) (CallsForPreprocessing s) (CacheHits s) (CacheMisses s) (EvictedMisses s) (HeaderChangedMisses s) (SourceChangedMisses s) (CacheEntries s) (CacheSize s).
Definition registerCallForExternalDebugInfo (s : t) : t :=
  mk (CallsWithInvalidArgument s) (CallsWithoutSourceFile s) (CallsWithMultipleSourceFiles s) (CallsWithPch s) (CallsForLinking s) (CallsForExternalDebugInfo s + 1) (CallsForPreprocessing s) (CacheHits s) (CacheMisses s) (EvictedMisses s) (HeaderChangedMisses s) (SourceChangedMisses s) (CacheEntries s) (CacheSize s).
Definition registerCallForPreprocessing (s : t) : t :=
  mk (CallsWithInvalidArgument s) (CallsWithoutSourceFile s) (CallsWithMultipleSourceFiles s) (CallsWithPch s) (CallsForLinking s) (CallsForExternalDebugInfo s) (CallsForPreprocessing s + 1) (CacheHits s) (CacheMisses s) (EvictedMisses s) (HeaderChangedMisses s) (SourceChangedMisses s) (CacheEntries s) (CacheSize s).
Definition registerCacheHit (s : t) : t :=
  mk (CallsWithInvalidArgument s) (CallsWithoutSourceFile s) (CallsWithMultipleSourceFiles s) (CallsWithPch s) (CallsForLinking s) (CallsForExternalDebugInfo s) (CallsForPreprocessing s) (CacheHits s + 1) (CacheMisses s) (EvictedMisses s) (HeaderChangedMisses s) (SourceChangedMisses s) (CacheEntries s) (CacheSize s).
Definition registerCacheMiss (s : t) : t :=
  mk (CallsWithInvalidArgument s) (CallsWithoutSourceFile s) (CallsWithMultipleSourceFiles s) (CallsWithPch s) (CallsForLinking s) (CallsForExternalDebugInfo s) (CallsForPreprocessing s) (CacheHits s) (CacheMisses s + 1) (EvictedMisses s) (HeaderChangedMisses s) (SourceChangedMisses s) (CacheEntries s) (CacheSize s).

(** [self.registerCacheMiss(); self._stats[EVICTED_MISSES] += 1] *)
Definition registerEvictedMiss (s : t) : t :=
  let s := registerCacheMiss s in
  mk (CallsWithInvalidArgument s) (CallsWithoutSourceFile s) (CallsWithMultipleSourceFiles s) (CallsWithPch s) (CallsForLinking s) (CallsForExternalDebugInfo s) (CallsForPreprocessing s) (CacheHits s) (CacheMisses s) (EvictedMisses s + 1) (HeaderChangedMisses s) (SourceChangedMisses s) (CacheEntries s) (CacheSize s).
Definition registerHeaderChangedMiss (s : t) : t :=
  let s := registerCacheMiss s in
  mk (CallsWithInvalidArgument s) (CallsWithoutSourceFile s) (CallsWithMultipleSourceFiles s) (CallsWithPch s) (CallsForLinking s) (CallsForExternalDebugInfo s) (CallsForPreprocessing s) (CacheHits s) (CacheMisses s) (EvictedMisses s) (HeaderChangedMisses s + 1) (SourceChangedMisses s) (CacheEntries s) (CacheSize s).
Definition registerSourceChangedMiss (s : t) : t :=
  let s := registerCacheMiss s in
  mk (CallsWithInvalidArgument s) (CallsWithoutSourceFile s) (CallsWithMultipleSourceFiles s) (CallsWithPch s) (CallsForLinking s) (CallsForExternalDebugInfo s) (CallsForPreprocessing s) (CacheHits s) (CacheMisses s) (EvictedMisses s) (HeaderChangedMisses s) (SourceChangedMisses s + 1) (CacheEntries s) (CacheSize s).

Definition setNumCacheEntries (n : Z) (s : t) : t :=
  mk (CallsWithInvalidArgument s) (CallsWithoutSourceFile s) (CallsWithMultipleSourceFiles s) (CallsWithPch s) (CallsForLinking s) (CallsForExternalDebugInfo s) (CallsForPreprocessing s) (CacheHits s) (CacheMisses s) (EvictedMisses s) (HeaderChangedMisses s) (SourceChangedMisses s) (n) (CacheSize s).
Definition registerCacheEntry (size : Z) (s : t) : t :=
  mk (CallsWithInvalidArgument s) (CallsWithoutSourceFile s) (CallsWithMultipleSourceFiles s) (CallsWithPch s) (CallsForLinking s) (CallsForExternalDebugInfo s) (CallsForPreprocessing s) (CacheHits s) (CacheMisses s) (EvictedMisses s) (HeaderChangedMisses s) (SourceChangedMisses s) (CacheEntries s + 1) (CacheSize s + size).
Definition unregisterCacheEntry (size : Z) (s : t) : t :=
  mk (CallsWithInvalidArgument s) (CallsWithoutSourceFile s) (CallsWithMultipleSourceFiles s) (CallsWithPch s) (CallsForLinking s) (CallsForExternalDebugInfo s) (CallsForPreprocessing s) (CacheHits s) (CacheMisses s) (EvictedMisses s) (HeaderChangedMisses s) (SourceChangedMisses s) (CacheEntries s - 1) (CacheSize s - size).
Definition setCacheSize (size : Z) (s : t) : t :=
  mk (CallsWithInvalidArgument s) (CallsWithoutSourceFile s) (CallsWithMultipleSourceFiles s) (CallsWithPch s) (CallsForLinking s) (CallsForExternalDebugInfo s) (CallsForPreprocessing s) (CacheHits s) (CacheMisses s) (EvictedMisses s) (HeaderChangedMisses s) (SourceChangedMisses s) (CacheEntries s) (size).

(** [resetCounters]: every key of [RESETTABLE_KEYS] set to 0. *)
Definition resetCounters (s : t) : t :=
  mk 0 0 0 0 0 0 0 0 0 0 0 0 (CacheEntries s) (CacheSize s).

(** The mutating methods of [Statistics], as calls. *)
Inductive call :=
| RegisterCallWithInvalidArgument
| RegisterCallWithoutSourceFile
| RegisterCallWithMultipleSourceFiles
| RegisterCallWithPch
| RegisterCallForLinking
| RegisterCallForExternalDebugInfo
| RegisterCallForPreprocessing
| RegisterCacheHit
| RegisterCacheMiss
| RegisterEvictedMiss
| RegisterHeaderChangedMiss
| RegisterSourceChangedMiss
| SetNumCacheEntries (n : Z)
| RegisterCacheEntry (size : Z)
| UnregisterCacheEntry (size : Z)
| SetCacheSize (size : Z)
| ResetCounters.

Definition step (c : call) (s : t) : t :=
  match c with
  | RegisterCallWithInvalidArgument => registerCallWithInvalidArgument s
  | RegisterCallWithoutSourceFile => registerCallWithoutSourceFile s
  | RegisterCallWithMultipleSourceFiles => registerCallWithMultipleSourceFiles s
  | RegisterCallWithPch => registerCallWithPch s
  | RegisterCallForLinking => registerCallForLinking s
  | RegisterCallForExternalDebugInfo => registerCallForExternalDebugInfo s
  | RegisterCallForPreprocessing => registerCallForPreprocessing s
  | RegisterCacheHit => registerCacheHit s
  | RegisterCacheMiss => registerCacheMiss s
  | RegisterEvictedMiss => registerEvictedMiss s
  | RegisterHeaderChangedMiss => registerHeaderChangedMiss s
  | RegisterSourceChangedMiss => registerSourceChangedMiss s
  | SetNumCacheEntries n => setNumCacheEntries n s
  | RegisterCacheEntry n => registerCacheEntry n s
  | UnregisterCacheEntry n => unregisterCacheEntry n s
  | SetCacheSize n => setCacheSize n s
  | ResetCounters => resetCounters s
  end.

(** Calls performed in order, first call first. *)
Definition run (cs : list call) (s : t) : t :=
  fold_left (fun s c => step c s) cs s.

(** Number of direct [registerCacheMiss] calls in a sequence. *)
Definition plainMisses (cs : list call) : Z :=
  Z.of_nat (List.length (filter (fun c => match c with RegisterCacheMiss => true | _ => false end) cs)).

End Stats.

(** ** [jobCount] (clcache.py) *)

Module JobCount.

Definition isDigit (c : ascii) : bool :=
  let n := nat_of_ascii c in Nat.leb 48 n && Nat.leb n 57.

Fixpoint allDigits (s : string) : bool :=
  match s with
  | EmptyString => true
  | String c s' => isDigit c && allDigits s'
  end.

Definition newline : string := String (ascii_of_nat 10) EmptyString.

(** Drops one trailing ["\n"], if there is one. *)
Definition dropFinalNewline (s : string) : string :=
  let n := String.length s in
  if (0 <? n)%nat && String.eqb (substring (n - 1) 1 s) newline
  then substring 0 (n - 1) s else s.

(** [re.match(r'^/MP(\d+)?$', arg)]: after ["/MP"], a possibly empty run
    of digits, then the end of the string; Python's [$] also matches just
    before a final ["\n"]. *)
Definition mpMatch (arg : string) : bool :=
  String.prefix "/MP" arg &&
  allDigits (dropFinalNewline (substring 3 (String.length arg - 3) arg)).

(** Characters [int()] strips: Python's whitespace in the ASCII range. *)
Definition isSpace (c : ascii) : bool :=
  let n := nat_of_ascii c in
  (Nat.leb 9 n && Nat.leb n 13) || (Nat.leb 28 n && Nat.leb n 32).

Fixpoint lstrip (s : string) : string :=
  match s with
  | String c s' => if isSpace c then lstrip s' else s
  | EmptyString => s
  end.

Fixpoint rev_string (s : string) (acc : string) : string :=
  match s with
  | EmptyString => acc
  | String c s' => rev_string s' (String c acc)
  end.

Definition strip (s : string) : string :=
  rev_string (lstrip (rev_string (lstrip s) EmptyString)) EmptyString.

(** Decimal digits with single underscores between digits, as [int()]
    accepts them; [None] when malformed. *)
Fixpoint digitsValue (prevDigit : bool) (acc : Z) (s : string) : option Z :=
  match s with
  | EmptyString => if prevDigit then Some acc else None
  | String c s' =>
      if isDigit c then
        digitsValue true (10 * acc + Z.of_nat (nat_of_ascii c - 48)) s'
      else if Ascii.eqb c "_"%char && prevDigit then
        match s' with
        | String d _ => if isDigit d then digitsValue false acc s' else None
        | EmptyString => None
        end
      else None
  end.

(** [int(s)] for a base-10 string: surrounding whitespace stripped, an
    optional sign, then digits; anything else raises [ValueError]. *)
Definition pyInt (s : string) : res Z :=
  let t := strip s in
  let signed :=
    match t with
    | String "-"%char u => option_map Z.opp (digitsValue false 0 u)
    | String "+"%char u => digitsValue false 0 u
    | _ => digitsValue false 0 t
    end in
  match signed with
  | Some z => inr z
  | None => inl ValueError
  end.

Section WithCpu.
(** [multiprocessing.cpu_count()]; [None] when it raises
    [NotImplementedError]. *)
Variable cpu_count : option Z.

(** [jobCount(cmdLine)] *)
Definition jobCount (cmdLine : list string) : res Z :=
  let mpSwitches := filter mpMatch cmdLine in
  match rev mpSwitches with
  | [] => inr 1
  | mpSwitch :: _ =>
      let count := substring 3 (String.length mpSwitch - 3) mpSwitch in
      if negb (String.eqb count "") then pyInt count
      else match cpu_count with
           | Some n => inr n
           | None => inr 2
           end
  end.
End WithCpu.

End JobCount.

(** ** The object store (clcache.py, [CompilerArtifactsSection],
    [CompilerArtifactsRepository]) *)

(** [CompilerArtifacts(objectFilePath, stdout, stderr)]; a [None] path is
    Python's [None]. *)
Record CompilerArtifacts := mkCompilerArtifacts {
  objectFilePath : option string;
  stdout : string;
  stderr : string
}.

Module ObjectStore.

Definition OBJECT_FILE : string := "object".
Definition STDOUT_FILE : string := "output.txt".
Definition STDERR_FILE : string := "stderr.txt".

(** The file system seen by one section: the files outside the cache (such
    as the compiler's object files) by path, and the entry directories of
    the section by name, each with its files by name. *)
Record fsys := mkFsys {
  files : list (string * string);
  dirs : list (string * list (string * string))
}.

(** [rmtree(d, ignore_errors=True)] *)
Definition rmtree (d : string) (fs : fsys) : fsys :=
  mkFsys (files fs) (aremove d (dirs fs)).

(** [ensureDirectoryExists(d)] *)
Definition ensureDirectoryExists (d : string) (fs : fsys) : fsys :=
  match alookup d (dirs fs) with
  | Some _ => fs
  | None => mkFsys (files fs) (aset d [] (dirs fs))
  end.

(** Writes file [name] of directory [d], which exists. *)
Definition writeFile (d name contents : string) (fs : fsys) : fsys :=
  match alookup d (dirs fs) with
  | Some fl => mkFsys (files fs) (aset d (aset name contents fl) (dirs fs))
  | None => fs
  end.

(** [os.replace(src, dst)] on directories: [dst] is replaced by [src]; an
    existing (non-empty) [dst] directory makes it raise [OSError]. *)
Definition osReplace (src dst : string) (fs : fsys) : res unit * fsys :=
  match alookup dst (dirs fs), alookup src (dirs fs) with
  | Some _, _ => (inl OSError, fs)
  | None, None => (inl FileNotFoundError, fs)
  | None, Some fl => (inr tt, mkFsys (files fs) (aset dst fl (aremove src (dirs fs))))
  end.

Section SetEntry.
(** The bytes [copyOrLink(src, dst, True)] writes for a source file:
    the contents themselves, or their gzip form under
    [CLCACHE_COMPRESS]. *)
Variable storedForm : string -> string.

(** [CompilerArtifactsSection.setEntry(key, artifacts)]; [size] stays
    unbound, [None] here, when no object file is copied. *)
Definition setEntry (key : string) (artifacts : CompilerArtifacts) (fs : fsys)
  : res Z * fsys :=
  let cacheEntryDir := key in
  let tempEntryDir := String.append key ".new" in
  let fs := rmtree tempEntryDir fs in
  let fs := ensureDirectoryExists tempEntryDir fs in
  let copied :=
    match objectFilePath artifacts with
    | None => inr (None, fs)
    | Some src =>
        match alookup src (files fs) with
        | None => inl FileNotFoundError
        | Some c =>
            let fs := writeFile tempEntryDir OBJECT_FILE (storedForm c) fs in
            inr (Some (Z.of_nat (String.length (storedForm c))), fs)
        end
    end in
  match copied with
  | inl e => (inl e, fs)
  | inr (size, fs) =>
      let fs := writeFile tempEntryDir STDOUT_FILE (stdout artifacts) fs in
      let fs := if String.eqb (stderr artifacts) ""%string then fs
                else writeFile tempEntryDir STDERR_FILE (stderr artifacts) fs in
      match osReplace tempEntryDir cacheEntryDir fs with
      | (inl e, fs) => (inl e, fs)
      | (inr _, fs) =>
          match size with
          | Some n => (inr n, fs)
          | None => (inl UnboundLocalError, fs)
          end
      end
  end.
End SetEntry.

(** [os.stat] of an entry's object file. *)
Record objStat := mkObjStat { st_atime : Z; st_size : Z }.

(** The entries of the store, over all sections: the cache key and the
    [os.stat] of its object file ([None] when [os.stat] raises [OSError]). *)
Definition store := list (string * option objStat).

(** [objectInfos] as collected by [clean]. *)
Fixpoint objectInfos (s : store) : list (objStat * string) :=
  match s with
  | [] => []
  | (k, Some st) :: s' => (st, k) :: objectInfos s'
  | (k, None) :: s' => objectInfos s'
  end.

(** [list.sort(key=lambda t: t[0].st_atime)]: a stable sort by access time. *)
Fixpoint insertByAtime (x : objStat * string) (l : list (objStat * string)) :=
  match l with
  | [] => [x]
  | y :: l' =>
      if st_atime (fst x) <? st_atime (fst y) then x :: y :: l'
      else y :: insertByAtime x l'
  end.

Definition sortByAtime (l : list (objStat * string)) : list (objStat * string) :=
  fold_left (fun acc x => insertByAtime x acc) l [].

Definition sumSizes (l : list (objStat * string)) : Z :=
  fold_right (fun x acc => st_size (fst x) + acc) 0 l.

(** [currentSizeObjects < maxCompilerArtifactsSize]; the budget is a
    Python float. *)
Definition belowBudget (current : Z) (budget : Q) : bool :=
  negb (Qle_bool budget (inject_Z current)).

(** The eviction loop: remove, count, subtract, then test the budget.
    Returns the removed keys, in order, and the remaining size. *)
Fixpoint evict (budget : Q) (infos : list (objStat * string)) (current : Z)
  : list string * Z :=
  match infos with
  | [] => ([], current)
  | (st, k) :: rest =>
      let current := current - st_size st in
      if belowBudget current budget then ([k], current)
      else let (ks, c) := evict budget rest current in (k :: ks, c)
  end.

(** [CompilerArtifactsRepository.clean(maxCompilerArtifactsSize)]: the
    result [(len(objectInfos) - removedItems, currentSizeObjects)], the
    keys removed and the store left. *)
Definition clean (budget : Q) (s : store) : (Z * Z) * list string * store :=
  let infos := sortByAtime (objectInfos s) in
  let currentSizeObjects := sumSizes infos in
  let (removed, current) := evict budget infos currentSizeObjects in
  let s' := fold_left (fun acc k => aremove k acc) removed s in
  ((Z.of_nat (List.length infos) - Z.of_nat (List.length removed), current), removed, s').

End ObjectStore.

(** ** The no-direct compile path (clcache.py, [computeKeyNodirect],
    [processNoDirect], [processSingleSource]) *)

Module NoDirect.

(** The state the path acts on: the cache entries by key (object bytes,
    stdout, stderr), the statistics, and the files of the build tree. *)
Record cacheState := mkCacheState {
  cacheEntries : list (string * (string * string * string));
  stats : Stats.t;
  workFiles : list (string * string)
}.

(** A state-and-exception monad. *)
Definition M (A : Type) : Type := cacheState -> res A * cacheState.

Definition ret {A} (a : A) : M A := fun s => (inr a, s).
Definition raise {A} (e : exn) : M A := fun s => (inl e, s).
Definition bind {A B} (m : M A) (f : A -> M B) : M B :=
  fun s => match m s with
           | (inl e, s') => (inl e, s')
           | (inr a, s') => f a s'
           end.
(** [try: m except e: handler(e)] *)
Definition catch {A} (m : M A) (handler : exn -> M A) : M A :=
  fun s => match m s with
           | (inl e, s') => handler e s'
           | (inr a, s') => (inr a, s')
           end.
Definition get : M cacheState := fun s => (inr s, s).
Definition put (s : cacheState) : M unit := fun _ => (inr tt, s).
Definition modify (f : cacheState -> cacheState) : M unit := fun s => (inr tt, f s).

Notation "x <- m ;; k" := (bind m (fun x => k)) (at level 61, m at next level, right associativity).
Notation "m ;;; k" := (bind m (fun _ => k)) (at level 61, right associativity).

Definition updateStats (f : Stats.t -> Stats.t) : M unit :=
  modify (fun s => mkCacheState (cacheEntries s) (f (stats s)) (workFiles s)).

Definition hasEntry (key : string) : M bool :=
  s <- get ;; ret (match alookup key (cacheEntries s) with Some _ => true | None => false end).

Definition preprocessorFailedNote : string :=
  String.append JobCount.newline "clcache: preprocessor failed".

(** [["/EP"] + [arg for arg in commandLine if arg not in ("-c", "/c")]] *)
Definition ppCommandLine (commandLine : list string) : list string :=
  "/EP"%string ::
    filter (fun arg => negb (String.eqb arg "-c" || String.eqb arg "/c")) commandLine.

Section Path.
(** [invokeRealCompiler(compilerBinary, cmd, captureOutput=True,
    outputAsString=False, environment=...)]: return code, stdout and
    stderr bytes, and the object file the compiler wrote, if any. *)
Variable invokeRealCompiler : list string -> (Z * string * string) * option string.
(** [bytes.decode(CL_DEFAULT_CODEC)] *)
Variable decodeMbcs : string -> string.
(** [getCompilerHash(compilerBinary)] *)
Variable compilerHash : string.
(** md5 of a byte string, hex digest *)
Variable md5 : string -> string.
(** [CompilerArtifactsRepository._normalizedCommandLine], built on the
    command-line analyzer *)
Variable normalizedCommandLine : list string -> list string.
(** [cfg.maximumCacheSize()] *)
Variable maximumCacheSize : Z.

(** [computeKeyNodirect(compilerBinary, commandLine, environment)] *)
Definition computeKeyNodirect (commandLine : list string) : M string :=
  let ppcmd := ppCommandLine commandLine in
  let '((returnCode, preprocessedSourceCode, ppStderrBinary), _) := invokeRealCompiler ppcmd in
  if negb (returnCode =? 0) then
    let errMsg := String.append (decodeMbcs ppStderrBinary) preprocessorFailedNote in
    raise (CompilerFailedException returnCode errMsg "")
  else
    ret (md5 (String.append compilerHash
               (String.append (joinWith " " (normalizedCommandLine commandLine))
                  preprocessedSourceCode))).

(** [invokeRealCompiler(compiler, cmdLine, captureOutput=True, environment=...)]:
    runs the compiler, which may write the object file, and decodes its output. *)
Definition compile (objectFile : string) (cmdLine : list string) : M (Z * string * string) :=
  let '((rc, out, err), obj) := invokeRealCompiler cmdLine in
  (match obj with
   | Some c => modify (fun s => mkCacheState (cacheEntries s) (stats s)
                                 (aset objectFile c (workFiles s)))
   | None => ret tt
   end) ;;;
  ret (rc, decodeMbcs out, decodeMbcs err).

(** [processCacheHit(cache, objectFile, cachekey)] *)
Definition processCacheHit (objectFile key : string) : M (Z * string * string * bool) :=
  updateStats Stats.registerCacheHit ;;;
  s <- get ;;
  match alookup key (cacheEntries s) with
  | None => raise FileNotFoundError
  | Some (obj, out, err) =>
      put (mkCacheState (cacheEntries s) (stats s) (aset objectFile obj (workFiles s))) ;;;
      ret (0, out, err, false)
  end.

(** [ensureArtifactsExist(cache, cachekey, reason, objectFile, compilerResult)]
    with [addObjectToCache] storing the object under the key. *)
Definition ensureArtifactsExist (key : string) (reason : Stats.t -> Stats.t)
    (objectFile : string) (compilerResult : Z * string * string)
  : M (Z * string * string * bool) :=
  let '(returnCode, compilerOutput, compilerStderr) := compilerResult in
  s <- get ;;
  let objectBytes := alookup objectFile (workFiles s) in
  present <- hasEntry key ;;
  if present then ret (returnCode, compilerOutput, compilerStderr, false)
  else
    updateStats reason ;;;
    match objectBytes with
    | Some obj =>
        if returnCode =? 0 then
          s <- get ;;
          let size := Z.of_nat (String.length obj) in
          let st := Stats.registerCacheEntry size (stats s) in
          put (mkCacheState (aset key (obj, compilerOutput, compilerStderr) (cacheEntries s))
                 st (workFiles s)) ;;;
          ret (returnCode, compilerOutput, compilerStderr,
               maximumCacheSize <=? Stats.CacheSize st)
        else ret (returnCode, compilerOutput, compilerStderr, false)
    | None => ret (returnCode, compilerOutput, compilerStderr, false)
    end.

(** [processNoDirect(cache, objectFile, compiler, cmdLine, environment)] *)
Definition processNoDirect (objectFile : string) (cmdLine : list string)
  : M (Z * string * string * bool) :=
  cachekey <- computeKeyNodirect cmdLine ;;
  hit <- hasEntry cachekey ;;
  if hit then processCacheHit objectFile cachekey
  else
    compilerResult <- compile objectFile cmdLine ;;
    ensureArtifactsExist cachekey Stats.registerCacheMiss objectFile compilerResult.

(** [processSingleSource] with [CLCACHE_NODIRECT] set: a
    [CompilerFailedException] becomes [e.getReturnTuple()]; its
    [IncludeNotFoundException] handler concerns the direct path only. *)
Definition processSingleSource (objectFile : string) (cmdLine : list string)
  : M (Z * string * string * bool) :=
  catch (processNoDirect objectFile cmdLine)
    (fun e => match e with
              | CompilerFailedException exitCode msgErr msgOut =>
                  ret (exitCode, msgErr, msgOut, false)
              | e => raise e
              end).
End Path.

End NoDirect.

(** ** Base directory placeholders (clcache.py) *)

(** [os.path.sep] of the Windows code. *)
Definition pathSep : string := String (ascii_of_nat 92) EmptyString.

Section BaseDir.
(** [os.path.normcase] *)
Variable normcase : string -> string.

(** [normalizeBaseDir(baseDir)]: [None] and [''] give [None]. *)
Definition normalizeBaseDir (baseDir : option string) : option string :=
  match baseDir with
  | None | Some EmptyString => None
  | Some b =>
      let b := normcase b in
      let n := String.length b in
      if (0 <? n)%nat && String.eqb (substring (n - 1) 1 b) pathSep
      then Some (substring 0 (n - 1) b) else Some b
  end.
End BaseDir.

(** [expandBasedirPlaceholder(path)], given
    [normalizeBaseDir(os.environ.get('CLCACHE_BASEDIR'))]. *)
Definition expandBasedirPlaceholder (baseDir : option string) (path : string) : res string :=
  if startswith path BASEDIR_REPLACEMENT then
    match baseDir with
    | None | Some EmptyString =>
        inl (LogicException (String.append "No CLCACHE_BASEDIR set, but found relative path " path))
    | Some bd => inr (replaceFirst BASEDIR_REPLACEMENT bd path)
    end
  else inr path.

(** ** Manifest store clean ([ManifestRepository.clean]) *)

Module ManifestStore.

(** The manifest files of all sections by path, with their [os.stat]
    ([None] when it raises [OSError]). *)
Definition files := list (string * option ObjectStore.objStat).

Fixpoint manifestFileInfos (fs : files) : list (ObjectStore.objStat * string) :=
  match fs with
  | [] => []
  | (p, Some st) :: fs' => (st, p) :: manifestFileInfos fs'
  | (p, None) :: fs' => manifestFileInfos fs'
  end.

(** [sort(key=lambda t: t[0].st_atime, reverse=True)]: stable, so entries
    with equal access times keep their order. *)
Fixpoint insertByAtimeDesc (x : ObjectStore.objStat * string) (l : list (ObjectStore.objStat * string)) :=
  match l with
  | [] => [x]
  | y :: l' =>
      if ObjectStore.st_atime (fst y) <? ObjectStore.st_atime (fst x) then x :: y :: l'
      else y :: insertByAtimeDesc x l'
  end.

Definition sortByAtimeDesc (l : list (ObjectStore.objStat * string)) :=
  fold_left (fun acc x => insertByAtimeDesc x acc) l [].

(** [remainingObjectsSize + stat.st_size <= maxManifestsSize] *)
Definition fits (n : Z) (budget : Q) : bool := Qle_bool (inject_Z n) budget.

(** The loop: keep a file when it still fits, remove it otherwise.
    Returns the kept size, the kept paths and the removed paths. *)
Fixpoint keepLoop (budget : Q) (infos : list (ObjectStore.objStat * string)) (remaining : Z)
  : Z * list string * list string :=
  match infos with
  | [] => (remaining, [], [])
  | (st, p) :: rest =>
      if fits (remaining + ObjectStore.st_size st) budget then
        let '(r, kept, removed) := keepLoop budget rest (remaining + ObjectStore.st_size st) in
        (r, p :: kept, removed)
      else
        let '(r, kept, removed) := keepLoop budget rest remaining in
        (r, kept, p :: removed)
  end.

(** [ManifestRepository.clean(maxManifestsSize)]: the returned size, the
    removed paths and the files left. *)
Definition clean (budget : Q) (fs : files) : Z * list string * files :=
  let '(r, _, removed) := keepLoop budget (sortByAtimeDesc (manifestFileInfos fs)) 0 in
  (r, removed, fold_left (fun acc p => aremove p acc) removed fs).

End ManifestStore.

(** ** Reading an entry back ([CompilerArtifactsSection.getEntry]) *)

Module EntryRead.
Import ObjectStore.

(** [os.path.join(cacheEntryDir, name)] *)
Definition joinPath (d name : string) : string := String.append d (String.append pathSep name).

(** [getCachedCompilerConsoleOutput(path)]: [''] when the file is missing. *)
Definition getCachedCompilerConsoleOutput (fl : list (string * string)) (name : string) : string :=
  match alookup name fl with
  | Some c => c
  | None => EmptyString
  end.

(** [getEntry(key)]: [assert self.hasEntry(key)], then the object path and
    the stored stdout and stderr. *)
Definition getEntry (key : string) (fs : fsys) : res CompilerArtifacts :=
  match alookup key (dirs fs) with
  | None => inl AssertionError
  | Some fl =>
      inr (mkCompilerArtifacts (Some (joinPath key OBJECT_FILE))
             (getCachedCompilerConsoleOutput fl STDOUT_FILE)
             (getCachedCompilerConsoleOutput fl STDERR_FILE))
  end.
End EntryRead.

(** ** Whole-cache clean ([CacheFileStrategy.clean]) *)

Module CacheClean.

Record state := mkState {
  stats : Stats.t;
  manifests : ManifestStore.files;
  objects : ObjectStore.store
}.

(** [CacheFileStrategy.clean(stats, maximumSize)]; the float products
    [maximumSize * 0.9] and [* 0.1] are taken as exact rationals. *)
Definition clean (maximumSize : Z) (s : state) : state :=
  let currentSize := Stats.CacheSize (stats s) in
  if currentSize <? maximumSize then s
  else
    let effectiveMaximumSizeOverall := (inject_Z maximumSize * (9 # 10))%Q in
    let effectiveMaximumSizeManifests := (effectiveMaximumSizeOverall * (1 # 10))%Q in
    let effectiveMaximumSizeObjects :=
      (effectiveMaximumSizeOverall - effectiveMaximumSizeManifests)%Q in
    let '(currentSizeManifests, _, manifests') :=
      ManifestStore.clean effectiveMaximumSizeManifests (manifests s) in
    let '(counts, _, objects') := ObjectStore.clean effectiveMaximumSizeObjects (objects s) in
    let '(count, size) := counts in
    let st := Stats.setCacheSize (size + currentSizeManifests) (stats s) in
    let st := Stats.setNumCacheEntries count st in
    mkState st manifests' objects'.

End CacheClean.

(** ** Response-file tokenizer (cmdline.py, [CommandLineTokenizer]) *)

Module Tokenizer.

Inductive pstate := Initial | Unquoted | Quoted.

Definition quoteChar : ascii := ascii_of_nat 34.
Definition backslashChar : ascii := ascii_of_nat 92.

(** [currentChar.isspace()] on ASCII characters. *)
Definition isspace (c : ascii) : bool := JobCount.isSpace c.

Definition charStr (c : ascii) : string := String c EmptyString.

(** ['\\' * n] *)
Fixpoint backslashes (n : nat) : string :=
  match n with
  | O => EmptyString
  | S n' => String backslashChar (backslashes n')
  end.

(** The run of backslashes at the start of [s]: its length and the rest. *)
Fixpoint spanBackslashes (s : string) : nat * string :=
  match s with
  | String c s' =>
      if Ascii.eqb c backslashChar then
        let '(n, r) := spanBackslashes s' in (S n, r)
      else (O, s)
  | EmptyString => (O, s)
  end.

(** The [while self._pos < len(self._content)] loop, on the characters not
    yet read; [argv] in order.  Every step reads at least one character, so
    [String.length content] steps suffice. *)
Fixpoint run (fuel : nat) (st : pstate) (token : string) (argv : list string) (s : string)
  : list string :=
  match fuel with
  | O => if String.eqb token "" then argv else argv ++ [token]
  | S fuel' =>
      (* [_parseBackslash], continuing in state [st'] *)
      let parseBackslash (st' : pstate) :=
        let '(n, s') := spanBackslashes s in
        match s' with
        | String q s'' =>
            if Ascii.eqb q quoteChar then
              let token := String.append token (backslashes (Nat.div n 2)) in
              if Nat.even n then run fuel' st' token argv s'
              else run fuel' st' (String.append token (charStr quoteChar)) argv s''
            else run fuel' st' (String.append token (backslashes n)) argv s'
        | EmptyString => run fuel' st' (String.append token (backslashes n)) argv s'
        end in
      match s with
      | EmptyString => if String.eqb token "" then argv else argv ++ [token]
      | String c rest =>
          match st with
          | Initial =>
              if isspace c then run fuel' Initial token argv rest
              else if Ascii.eqb c quoteChar then run fuel' Quoted token argv rest
              else if Ascii.eqb c backslashChar then parseBackslash Unquoted
              else run fuel' Unquoted (String.append token (charStr c)) argv rest
          | Unquoted =>
              if isspace c then run fuel' Initial "" (argv ++ [token]) rest
              else if Ascii.eqb c quoteChar then run fuel' Quoted token argv rest
              else if Ascii.eqb c backslashChar then parseBackslash Unquoted
              else run fuel' Unquoted (String.append token (charStr c)) argv rest
          | Quoted =>
              if Ascii.eqb c quoteChar then run fuel' Unquoted token argv rest
              else if Ascii.eqb c backslashChar then parseBackslash Quoted
              else run fuel' Quoted (String.append token (charStr c)) argv rest
          end
      end
  end.

(** [splitCommandsFile(content)] = [CommandLineTokenizer(content).argv] *)
Definition splitCommandsFile (content : string) : list string :=
  run (String.length content) Initial "" [] content.

(** Python's [str.split()] with no separator, to compare with. *)
Fixpoint splitAux (s : string) (tok : string) : list string :=
  match s with
  | EmptyString => if String.eqb tok "" then [] else [tok]
  | String c s' =>
      if isspace c then
        (if String.eqb tok "" then splitAux s' "" else tok :: splitAux s' "")
      else splitAux s' (String.append tok (charStr c))
  end.

Definition pySplit (s : string) : list string := splitAux s "".

(** No double quote in [s]. *)
Fixpoint noQuote (s : string) : bool :=
  match s with
  | EmptyString => true
  | String c s' => negb (Ascii.eqb c quoteChar) && noQuote s'
  end.

(** No double quote and no backslash in [s]. *)
Fixpoint plainText (s : string) : bool :=
  match s with
  | EmptyString => true
  | String c s' => negb (Ascii.eqb c quoteChar) && negb (Ascii.eqb c backslashChar) && plainText s'
  end.

End Tokenizer.

(** ** Scheduling jobs (clcache.py, [filterSourceFiles], [scheduleJobs]) *)

Module Schedule.

(** [arg.startswith(skippedArgs)] for [('/Tc', '/Tp', '-Tp', '-Tc')] *)
Definition skippedArg (arg : string) : bool :=
  startswith arg "/Tc" || startswith arg "/Tp" || startswith arg "-Tp" || startswith arg "-Tc".

(** [filterSourceFiles(cmdLine, sourceFiles)] *)
Definition filterSourceFiles (cmdLine : list string) (sourceFiles : list (string * string))
  : list string :=
  let setOfSources := map fst sourceFiles in
  filter (fun arg => negb (existsb (String.eqb arg) setOfSources || skippedArg arg)) cmdLine.

(** [baseCmdLine = [arg for arg in filterSourceFiles(...) if not arg.startswith('/MP')]] *)
Definition baseCmdLine (cmdLine : list string) (sourceFiles : list (string * string))
  : list string :=
  filter (fun arg => negb (startswith arg "/MP")) (filterSourceFiles cmdLine sourceFiles).

(** [for (srcFile, srcLanguage), objFile in zip(sourceFiles, objectFiles)]:
    [jobCmdLine = baseCmdLine + [srcLanguage + srcFile]], with its object file. *)
Definition jobCmdLines (cmdLine : list string) (sourceFiles : list (string * string))
    (objectFiles : list string) : list (list string * string) :=
  map (fun '((srcFile, srcLanguage), objFile) =>
         (baseCmdLine cmdLine sourceFiles ++ [String.append srcLanguage srcFile], objFile))
      (combine sourceFiles objectFiles).

(** The loop over [as_completed(jobs)], on the results in completion order:
    [cleanupRequired |= doCleanup], print, stop at the first non-zero exit
    code.  Returns [(exitCode, cleanupRequired)] and the printed outputs. *)
Fixpoint consumeResults (results : list (Z * string * string * bool)) (exitCode : Z)
    (cleanupRequired : bool) : Z * bool * list (string * string) :=
  match results with
  | [] => (exitCode, cleanupRequired, [])
  | (ec, out, err, doCleanup) :: rest =>
      let cleanupRequired := cleanupRequired || doCleanup in
      if negb (ec =? 0) then (ec, cleanupRequired, [(out, err)])
      else let '(e, c, printed) := consumeResults rest ec cleanupRequired in
           (e, c, (out, err) :: printed)
  end.

(** [scheduleJobs] outside [CLCACHE_SINGLEFILE]: [exitCode = 0],
    [cleanupRequired = False] before the loop. *)
Definition scheduleResults (results : list (Z * string * string * bool)) : Z * bool * list (string * string) :=
  consumeResults results 0 false.

End Schedule.

(** What a statistics call adds to [CacheSize] and to [CacheEntries]. *)
Definition sizeChange (c : Stats.call) : Z :=
  match c with
  | Stats.RegisterCacheEntry n => n
  | Stats.UnregisterCacheEntry n => - n
  | _ => 0
  end.

Definition entriesChange (c : Stats.call) : Z :=
  match c with
  | Stats.RegisterCacheEntry _ => 1
  | Stats.UnregisterCacheEntry _ => -1
  | _ => 0
  end.

Definition setsCacheSize (c : Stats.call) : bool :=
  match c with Stats.SetCacheSize _ => true | _ => false end.

Definition setsNumCacheEntries (c : Stats.call) : bool :=
  match c with Stats.SetNumCacheEntries _ => true | _ => false end.

(** Misses not attributed to a specific reason. *)
Definition missBalance (s : Stats.t) : Z :=
  Stats.CacheMisses s -
  (Stats.EvictedMisses s + Stats.HeaderChangedMisses s + Stats.SourceChangedMisses s).

(** The value of a string of decimal digits, most significant first. *)
Fixpoint decimalValueAcc (acc : Z) (d : string) : Z :=
  match d with
  | EmptyString => acc
  | String c d' => decimalValueAcc (10 * acc + Z.of_nat (nat_of_ascii c - 48)) d'
  end.

Definition decimalValue (d : string) : Z := decimalValueAcc 0 d.

(** The order [clean] sorts the object infos by. *)
Definition atimeLe (a b : ObjectStore.objStat * string) : Prop :=
  (ObjectStore.st_atime (fst a) <= ObjectStore.st_atime (fst b))%Z.

Local Open Scope string_scope.
Local Open Scope list_scope.

(** ** Sample inputs *)

(** Distinct entries 0 .. 100, as a manifest would receive them. *)
Definition sampleEntry (n : nat) : ManifestEntry :=
  mkManifestEntry [] "" (String (ascii_of_nat n) EmptyString).

(** The 100 entries [sampleEntry 0 .. 99] after inserting each with
    [addEntry], most recent first. *)
Definition manifest100 : list ManifestEntry :=
  fold_left (fun m n => Manifest.addEntry (sampleEntry n) m) (seq 0 100) [].

(** * Properties *)

(** ** Manifests *)

Lemma addEntry_length : forall e es,
  List.length (Manifest.addEntry e es) = S (List.length es).
Proof. reflexivity. Qed.

Lemma findIndex_first : forall es i e,
  nth_error es i = Some e ->
  Forall (fun e' => objectHash e' <> objectHash e) (firstn i es) ->
  Manifest.findIndex (objectHash e) es = i.
Proof.
  intros es i e Hnth Hpre. unfold Manifest.findIndex.
  enough (H : Manifest.findIndexFrom (objectHash e) es = Some i) by now rewrite H.
  revert i e Hnth Hpre.
  induction es as [|x es IH]; intros [|i] e Hnth Hpre; simpl in *; try discriminate.
  - injection Hnth as ->. now rewrite String.eqb_refl.
  - inversion Hpre as [|? ? Hx Hrest]; subst.
    apply String.eqb_neq in Hx. rewrite Hx. now rewrite (IH i e Hnth Hrest).
Qed.

Lemma pop_nth : forall {A} (es : list A) i e,
  nth_error es i = Some e ->
  Manifest.pop i es = inr (e, firstn i es ++ skipn (S i) es).
Proof.
  induction es as [|x es IH]; intros [|i] e Hnth; simpl in *; try discriminate.
  - now injection Hnth as ->.
  - now rewrite (IH i e Hnth).
Qed.

Lemma nth_split_firstn : forall {A} (es : list A) i e,
  nth_error es i = Some e -> es = firstn i es ++ e :: skipn (S i) es.
Proof.
  induction es as [|x es IH]; intros [|i] e Hnth; simpl in *; try discriminate.
  - now injection Hnth as ->.
  - f_equal. now apply IH.
Qed.

(** C2 (code_bug): [addEntry] enforces no cap of [MAX_MANIFEST_HASHES]
    entries: inserting a 101st distinct entry into a manifest of 100 distinct
    entries yields 101 entries, and the oldest entry is still there. *)
Theorem C2_addEntry_exceeds_cap :
  NoDup (map objectHash (Manifest.addEntry (sampleEntry 100) manifest100)) /\
  List.length manifest100 = MAX_MANIFEST_HASHES /\
  List.length (Manifest.addEntry (sampleEntry 100) manifest100) = S MAX_MANIFEST_HASHES /\
  last (Manifest.addEntry (sampleEntry 100) manifest100) (sampleEntry 100) = sampleEntry 0.
Proof.
  split; [|split; [|split]].
  - vm_compute. repeat constructor; simpl; intuition discriminate.
  - vm_compute. reflexivity.
  - rewrite addEntry_length. vm_compute. reflexivity.
  - vm_compute. reflexivity.
Qed.

(** C3 counterexample: adding an entry whose objectHash is already in the
    manifest grows the manifest and leaves the objectHash twice in it. *)
Lemma C3_counterexample :
  let old := mkManifestEntry ["a.h"] "c1" "h" in
  let new := mkManifestEntry ["b.h"] "c2" "h" in
  In (objectHash new) (map objectHash [old]) /\
  List.length (Manifest.addEntry new [old]) = 2%nat /\
  ~ NoDup (map objectHash (Manifest.addEntry new [old])).
Proof.
  simpl. split; [left; reflexivity | split; [reflexivity|]].
  intro H. inversion H as [|? ? Hnot _]. apply Hnot. left. reflexivity.
Qed.

(** C3 (amended): [addEntry] always puts the entry at position 0 and keeps
    every existing entry after it; when its objectHash already appears, the
    manifest grows by one and holds that objectHash twice. *)
Theorem C3_addEntry_duplicates : forall e es,
  In (objectHash e) (map objectHash es) ->
  Manifest.addEntry e es = e :: es /\
  List.length (Manifest.addEntry e es) = S (List.length es) /\
  ~ NoDup (map objectHash (Manifest.addEntry e es)).
Proof.
  intros e es Hin. split; [reflexivity | split; [reflexivity |]].
  simpl. intro H. inversion H; contradiction.
Qed.

Lemma C3_addEntry_duplicates_witness :
  In "h"%string (map objectHash [mkManifestEntry ["a.h"] "c1" "h"]) /\
  ~ NoDup (map objectHash (Manifest.addEntry (mkManifestEntry ["b.h"] "c2" "h")
                            [mkManifestEntry ["a.h"] "c1" "h"])).
Proof.
  split.
  - simpl. left. reflexivity.
  - apply (C3_addEntry_duplicates (mkManifestEntry ["b.h"] "c2" "h")).
    simpl. left. reflexivity.
Defined.

(** C6 counterexample: with two entries sharing an objectHash, a hit on the
    entry at position 1 leaves the entry at position 0 in front. *)
Lemma C6_counterexample :
  let e0 := mkManifestEntry ["a.h"] "c" "h" in
  let e1 := mkManifestEntry ["b.h"] "c" "h" in
  nth_error [e0; e1] 1 = Some e1 /\
  Manifest.touchEntry (objectHash e1) [e0; e1] = inr [e0; e1] /\
  e0 <> e1.
Proof.
  simpl. split; [reflexivity | split; [reflexivity |]].
  intro H. injection H. discriminate.
Qed.

(** C6 (amended): after a hit on the entry at position [i > 0], when no
    earlier entry has the same objectHash (as when objectHashes are unique),
    [touchEntry] puts that entry at position 0 and keeps all other entries
    in their relative order; the result is a permutation of the manifest. *)
Theorem C6_touchEntry_moves_to_front : forall es i e,
  nth_error es i = Some e ->
  (0 < i)%nat ->
  Forall (fun e' => objectHash e' <> objectHash e) (firstn i es) ->
  Manifest.touchEntry (objectHash e) es = inr (e :: firstn i es ++ skipn (S i) es) /\
  Permutation es (e :: firstn i es ++ skipn (S i) es).
Proof.
  intros es i e Hnth _ Hpre. split.
  - unfold Manifest.touchEntry.
    rewrite (findIndex_first es i e Hnth Hpre), (pop_nth es i e Hnth). reflexivity.
  - rewrite (nth_split_firstn es i e Hnth) at 1.
    apply Permutation_sym, Permutation_middle.
Qed.

Lemma C6_touchEntry_moves_to_front_witness :
  Manifest.touchEntry "h2"
    [mkManifestEntry [] "" "h0"; mkManifestEntry [] "" "h1"; mkManifestEntry [] "" "h2"]
  = inr [mkManifestEntry [] "" "h2"; mkManifestEntry [] "" "h0"; mkManifestEntry [] "" "h1"].
Proof.
  refine (proj1 (C6_touchEntry_moves_to_front
                   [mkManifestEntry [] "" "h0"; mkManifestEntry [] "" "h1"; mkManifestEntry [] "" "h2"]
                   2 (mkManifestEntry [] "" "h2") eq_refl _ _)).
  - auto.
  - simpl. repeat constructor; simpl; discriminate.
Defined.

(** ** The manifest-entry builder *)

Lemma stringLt_irrefl : forall x, ~ String_as_OT.lt x x.
Proof. intros x H. exact (StrictOrder_Irreflexive x H). Qed.

Lemma stringLt_trans : forall x y z, String_as_OT.lt x y -> String_as_OT.lt y z -> String_as_OT.lt x z.
Proof. intros x y z. apply StrictOrder_Transitive. Qed.

Lemma insertUniq_In : forall x l y, In y (insertUniq x l) <-> y = x \/ In y l.
Proof.
  intros x l y. induction l as [|z l IH]; simpl.
  - intuition congruence.
  - destruct (String_as_OT.compare_spec x z) as [Heq|Hlt|Hgt]; simpl.
    + subst. intuition congruence.
    + intuition congruence.
    + rewrite IH. intuition congruence.
Qed.

Lemma sortedSet_In : forall l y, In y (sortedSet l) <-> In y l.
Proof.
  induction l as [|x l IH]; intros y; simpl.
  - tauto.
  - rewrite insertUniq_In, IH. intuition.
Qed.

Lemma insertUniq_sorted : forall x l,
  StronglySorted String_as_OT.lt l -> StronglySorted String_as_OT.lt (insertUniq x l).
Proof.
  intros x l. induction l as [|z l IH]; intros Hs; simpl.
  - repeat constructor.
  - inversion Hs as [|? ? Hs' Hall]; subst.
    destruct (String_as_OT.compare_spec x z) as [Heq|Hlt|Hgt].
    + exact Hs.
    + constructor; [exact Hs|]. constructor; [exact Hlt|].
      eapply Forall_impl; [|exact Hall]. intros w Hw. eapply stringLt_trans; eauto.
    + constructor; [now apply IH|].
      apply Forall_forall. intros w Hw. apply insertUniq_In in Hw as [->|Hw].
      * exact Hgt.
      * exact (proj1 (Forall_forall _ _) Hall w Hw).
Qed.

Lemma sortedSet_sorted : forall l, StronglySorted String_as_OT.lt (sortedSet l).
Proof.
  induction l as [|x l IH]; simpl.
  - constructor.
  - now apply insertUniq_sorted.
Qed.

Lemma sorted_same_elements_eq : forall l1 l2,
  StronglySorted String_as_OT.lt l1 -> StronglySorted String_as_OT.lt l2 ->
  (forall x, In x l1 <-> In x l2) -> l1 = l2.
Proof.
  induction l1 as [|a l1 IH]; intros [|b l2] H1 H2 Hiff.
  - reflexivity.
  - exfalso. apply (proj2 (Hiff b)). left. reflexivity.
  - exfalso. apply (proj1 (Hiff a)). left. reflexivity.
  - inversion H1 as [|? ? H1' Hall1]; inversion H2 as [|? ? H2' Hall2]; subst.
    assert (Hab : a = b).
    { destruct (proj1 (Hiff a) (or_introl eq_refl)) as [|Ha]; [now subst|].
      destruct (proj2 (Hiff b) (or_introl eq_refl)) as [|Hb]; [now subst|].
      pose proof (proj1 (Forall_forall _ _) Hall2 a Ha) as Hba.
      pose proof (proj1 (Forall_forall _ _) Hall1 b Hb) as Hab.
      exfalso. exact (stringLt_irrefl a (stringLt_trans _ _ _ Hab Hba)). }
    subst b. f_equal. apply IH; [exact H1' | exact H2' |].
    intros x. split; intros Hx.
    + pose proof (proj1 (Forall_forall _ _) Hall1 x Hx) as Hax.
      destruct (proj1 (Hiff x) (or_intror Hx)) as [->|Hx2]; [|exact Hx2].
      exfalso. exact (stringLt_irrefl _ Hax).
    + pose proof (proj1 (Forall_forall _ _) Hall2 x Hx) as Hax.
      destruct (proj2 (Hiff x) (or_intror Hx)) as [->|Hx1]; [|exact Hx1].
      exfalso. exact (stringLt_irrefl _ Hax).
Qed.

Lemma sortedSet_same_elements : forall l1 l2,
  (forall x, In x l1 <-> In x l2) -> sortedSet l1 = sortedSet l2.
Proof.
  intros l1 l2 H. apply sorted_same_elements_eq; try apply sortedSet_sorted.
  intros x. rewrite !sortedSet_In. apply H.
Qed.

(** C4: include lists that are permutations of each other, or that differ
    only by duplicated paths, give the same [createManifestEntry] result, in
    particular the same includesContentHash and objectHash. *)
Theorem C4_createManifestEntry_order_independent :
  forall md5 fileHash baseDir manifestHash l1 l2,
  (Permutation l1 l2 \/ (forall x, In x l1 <-> In x l2)) ->
  createManifestEntry md5 fileHash baseDir manifestHash l1 =
  createManifestEntry md5 fileHash baseDir manifestHash l2.
Proof.
  intros md5 fileHash baseDir manifestHash l1 l2 Hrel.
  assert (Hsame : sortedSet l1 = sortedSet l2).
  { apply sortedSet_same_elements. destruct Hrel as [Hp|Hiff]; [|exact Hiff].
    intros x. split; intros Hx; [exact (Permutation_in x Hp Hx)
                               | exact (Permutation_in x (Permutation_sym Hp) Hx)]. }
  unfold createManifestEntry. now rewrite Hsame.
Qed.

Lemma C4_createManifestEntry_order_independent_witness :
  createManifestEntry (fun s => s) (fun p => Some p) None "m" ["b.h"; "a.h"] =
  createManifestEntry (fun s => s) (fun p => Some p) None "m" ["a.h"; "b.h"; "a.h"].
Proof.
  apply C4_createManifestEntry_order_independent. right.
  intros x. simpl. tauto.
Defined.

(** C5 counterexample: for the include list [b.h; a.h] the stored
    includeFiles are [a.h; b.h], not in order of first appearance. *)
Lemma C5_counterexample :
  createManifestEntry (fun s => s) (fun p => Some p) None "m" ["b.h"; "a.h"] =
    inr (mkManifestEntry ["a.h"; "b.h"] "a.h,b.h" "ma.h,b.h") /\
  map (collapseBasedirToPlaceholder None) (dedupFirst [] ["b.h"; "a.h"]) = ["b.h"; "a.h"] /\
  ["a.h"; "b.h"] <> ["b.h"; "a.h"].
Proof.
  split; [reflexivity | split; [reflexivity |]]. discriminate.
Qed.

(** C5 (amended): the stored includeFiles are the distinct input paths in
    strictly increasing code-point order (sorted before collapsing), each
    with the basedir prefix collapsed to the placeholder. *)
Theorem C5_includeFiles_sorted_distinct :
  forall md5 fileHash baseDir manifestHash l e,
  createManifestEntry md5 fileHash baseDir manifestHash l = inr e ->
  exists s, StronglySorted String_as_OT.lt s /\ (forall x, In x s <-> In x l) /\
            includeFiles e = map (collapseBasedirToPlaceholder baseDir) s.
Proof.
  intros md5 fileHash baseDir manifestHash l e H.
  exists (sortedSet l). split; [apply sortedSet_sorted | split; [apply sortedSet_In |]].
  unfold createManifestEntry in H.
  destruct (getFileHashes fileHash (sortedSet l)); [discriminate|].
  injection H as <-. reflexivity.
Qed.

Lemma C5_includeFiles_sorted_distinct_witness :
  exists s, StronglySorted String_as_OT.lt s /\ (forall x, In x s <-> In x ["c:\b.h"; "c:\a.h"; "c:\b.h"]) /\
    includeFiles (mkManifestEntry ["?\a.h"; "?\b.h"] "c:\a.h,c:\b.h" "mc:\a.h,c:\b.h") =
    map (collapseBasedirToPlaceholder (Some "c:")) s.
Proof.
  apply (C5_includeFiles_sorted_distinct (fun s => s) (fun p => Some p) (Some "c:") "m").
  reflexivity.
Defined.

(** ** Statistics *)

Lemma missBalance_step : forall c s,
  c <> Stats.ResetCounters ->
  missBalance (Stats.step c s) =
  missBalance s + (match c with Stats.RegisterCacheMiss => 1 | _ => 0 end).
Proof.
  intros c s Hc. destruct c; try (exfalso; now apply Hc);
    unfold missBalance; destruct s; cbn; lia.
Qed.

Lemma plainMisses_cons : forall c cs,
  Stats.plainMisses (c :: cs) =
  (match c with Stats.RegisterCacheMiss => 1 | _ => 0 end) + Stats.plainMisses cs.
Proof.
  intros c cs. unfold Stats.plainMisses. destruct c; cbn [filter List.length]; lia.
Qed.

Lemma missBalance_run : forall cs s,
  ~ In Stats.ResetCounters cs ->
  missBalance (Stats.run cs s) = missBalance s + Stats.plainMisses cs.
Proof.
  induction cs as [|c cs IH]; intros s Hno.
  - unfold Stats.plainMisses. simpl. lia.
  - unfold Stats.run in *. simpl.
    rewrite IH by (intro H; apply Hno; now right).
    rewrite missBalance_step by (intro H; apply Hno; left; now symmetry).
    rewrite plainMisses_cons. lia.
Qed.

(** C8: from the all-zero statistics, after any sequence of register (and
    other non-reset) calls, CacheMisses equals EvictedMisses +
    HeaderChangedMisses + SourceChangedMisses + the number of direct
    [registerCacheMiss] calls. *)
Theorem C8_cacheMisses_conservation : forall cs,
  ~ In Stats.ResetCounters cs ->
  Stats.CacheMisses (Stats.run cs Stats.zero) =
    Stats.EvictedMisses (Stats.run cs Stats.zero) +
    Stats.HeaderChangedMisses (Stats.run cs Stats.zero) +
    Stats.SourceChangedMisses (Stats.run cs Stats.zero) +
    Stats.plainMisses cs.
Proof.
  intros cs Hno. pose proof (missBalance_run cs Stats.zero Hno) as H.
  unfold missBalance in H. cbn [Stats.zero Stats.CacheMisses Stats.EvictedMisses
    Stats.HeaderChangedMisses Stats.SourceChangedMisses] in H. lia.
Qed.

Lemma C8_cacheMisses_conservation_witness :
  Stats.CacheMisses (Stats.run [Stats.RegisterEvictedMiss; Stats.RegisterCacheMiss;
                                Stats.RegisterHeaderChangedMiss; Stats.RegisterCacheHit] Stats.zero) = 3.
Proof.
  rewrite (C8_cacheMisses_conservation
             [Stats.RegisterEvictedMiss; Stats.RegisterCacheMiss;
              Stats.RegisterHeaderChangedMiss; Stats.RegisterCacheHit]).
  - reflexivity.
  - simpl. intuition discriminate.
Defined.

(** ** jobCount *)

(** C9 (code_bug): a later [/MP] followed by a newline passes the
    [^/MP(\d+)?$] filter, since [$] matches before a final newline, and
    [int("\n")] then raises [ValueError]; the earlier [/MP4] does not take
    precedence. *)
Theorem C9_jobCount_newline_switch : forall cpu_count,
  JobCount.mpMatch (String.append "/MP" JobCount.newline) = true /\
  JobCount.jobCount cpu_count ["/MP4"; String.append "/MP" JobCount.newline] = inl ValueError.
Proof. intros cpu_count. split; reflexivity. Qed.

(** ** setEntry *)

(** C1 (code_bug): [setEntry] with no object file never returns a size: it
    raises ([UnboundLocalError] at [return size], or [OSError] from
    [os.replace] when the entry directory already exists). *)
Theorem C1_setEntry_without_object_fails : forall storedForm key out err fs n,
  fst (ObjectStore.setEntry storedForm key (mkCompilerArtifacts None out err) fs) <> inr n.
Proof.
  intros storedForm key out err fs n. unfold ObjectStore.setEntry. cbn [objectFilePath].
  destruct (ObjectStore.osReplace _ _ _) as [[e|u] fs']; discriminate.
Qed.

(** On a fresh key, the entry directory is published before [return size]
    raises. *)
Lemma setEntry_without_object_publishes_then_raises :
  ObjectStore.setEntry (fun c => c) "k" (mkCompilerArtifacts None "out" "") (ObjectStore.mkFsys [] [])
  = (inl UnboundLocalError, ObjectStore.mkFsys [] [("k", [("output.txt", "out")])]).
Proof. reflexivity. Qed.

(** ** The no-direct path *)

(** C7: when the preprocessor run exits non-zero, [computeKeyNodirect]
    raises [CompilerFailedException] with that exit code and the decoded
    stderr followed by the "preprocessor failed" note, and the per-source
    invocation returns [(exitCode, stderr, "", False)] with the cache, the
    statistics and the build tree unchanged. *)
Theorem C7_preprocessor_failure :
  forall invokeRealCompiler decodeMbcs compilerHash md5 normalizedCommandLine
         maximumCacheSize objectFile cmdLine st rc ppOut ppErr obj,
  invokeRealCompiler (NoDirect.ppCommandLine cmdLine) = ((rc, ppOut, ppErr), obj) ->
  rc <> 0 ->
  NoDirect.computeKeyNodirect invokeRealCompiler decodeMbcs compilerHash md5
    normalizedCommandLine cmdLine st =
    (inl (CompilerFailedException rc
            (String.append (decodeMbcs ppErr) NoDirect.preprocessorFailedNote) ""), st) /\
  NoDirect.processSingleSource invokeRealCompiler decodeMbcs compilerHash md5
    normalizedCommandLine maximumCacheSize objectFile cmdLine st =
    (inr (rc, String.append (decodeMbcs ppErr) NoDirect.preprocessorFailedNote, "", false), st).
Proof.
  intros invokeRealCompiler decodeMbcs compilerHash md5 normalizedCommandLine
         maximumCacheSize objectFile cmdLine st rc ppOut ppErr obj Hinv Hrc.
  assert (Hkey : NoDirect.computeKeyNodirect invokeRealCompiler decodeMbcs compilerHash md5
                   normalizedCommandLine cmdLine st =
                 (inl (CompilerFailedException rc
                         (String.append (decodeMbcs ppErr) NoDirect.preprocessorFailedNote) ""), st)).
  { unfold NoDirect.computeKeyNodirect. rewrite Hinv.
    apply Z.eqb_neq in Hrc. rewrite Hrc. reflexivity. }
  split; [exact Hkey|].
  unfold NoDirect.processSingleSource, NoDirect.catch, NoDirect.processNoDirect, NoDirect.bind.
  rewrite Hkey. reflexivity.
Qed.

Lemma C7_preprocessor_failure_witness :
  NoDirect.processSingleSource (fun _ => ((2, "", "fatal error C1083"), None)) (fun s => s) "c" (fun s => s)
    (fun l => l) 100 "a.obj" ["/c"; "a.cpp"] (NoDirect.mkCacheState [] Stats.zero [])
  = (inr (2, String.append "fatal error C1083" NoDirect.preprocessorFailedNote, "", false),
     NoDirect.mkCacheState [] Stats.zero []).
Proof.
  exact (proj2 (C7_preprocessor_failure (fun _ => ((2, "", "fatal error C1083"), None)) (fun s => s)
                  "c" (fun s => s) (fun l => l) 100 "a.obj" ["/c"; "a.cpp"]
                  (NoDirect.mkCacheState [] Stats.zero []) 2 "" "fatal error C1083" None
                  eq_refl ltac:(discriminate))).
Defined.

(** ** Object store clean *)

Section Clean.
Import ObjectStore.

Lemma insertByAtime_perm : forall x l, Permutation (insertByAtime x l) (x :: l).
Proof.
  intros x l. induction l as [|y l IH]; simpl; [reflexivity|].
  destruct (Z.ltb (st_atime (fst x)) (st_atime (fst y))); [reflexivity|].
  rewrite IH. apply perm_swap.
Qed.

Lemma sortByAtime_perm_gen : forall l acc,
  Permutation (fold_left (fun acc x => insertByAtime x acc) l acc) (l ++ acc).
Proof.
  induction l as [|x l IH]; intros acc; simpl; [reflexivity|].
  rewrite IH, insertByAtime_perm. apply Permutation_sym, Permutation_middle.
Qed.

Lemma sortByAtime_perm : forall l, Permutation (sortByAtime l) l.
Proof.
  intros l. unfold sortByAtime. rewrite sortByAtime_perm_gen. now rewrite app_nil_r.
Qed.

Lemma insertByAtime_hd : forall y x l,
  atimeLe y x -> HdRel atimeLe y l -> HdRel atimeLe y (insertByAtime x l).
Proof.
  intros y x [|z l] Hyx Hhd; simpl.
  - now constructor.
  - destruct (Z.ltb (st_atime (fst x)) (st_atime (fst z))); constructor; [exact Hyx|].
    now inversion Hhd.
Qed.

Lemma insertByAtime_sorted : forall x l, Sorted atimeLe l -> Sorted atimeLe (insertByAtime x l).
Proof.
  intros x l. induction l as [|y l IH]; intros Hs; simpl.
  - repeat constructor.
  - inversion Hs as [|? ? Hs' Hhd]; subst.
    destruct (Z.ltb (st_atime (fst x)) (st_atime (fst y))) eqn:Hlt.
    + apply Z.ltb_lt in Hlt. constructor; [exact Hs|]. constructor. unfold atimeLe. lia.
    + apply Z.ltb_ge in Hlt. constructor; [now apply IH|].
      apply insertByAtime_hd; [exact Hlt | exact Hhd].
Qed.

Lemma sortByAtime_sorted : forall l, Sorted atimeLe (sortByAtime l).
Proof.
  intros l. unfold sortByAtime.
  assert (H : forall acc, Sorted atimeLe acc ->
               Sorted atimeLe (fold_left (fun acc x => insertByAtime x acc) l acc)).
  { induction l as [|x l IH]; intros acc Hacc; simpl; [exact Hacc|].
    apply IH. now apply insertByAtime_sorted. }
  apply H. constructor.
Qed.

Lemma objectInfos_In : forall s k st, In (k, Some st) s <-> In (st, k) (objectInfos s).
Proof.
  induction s as [|[k' [st'|]] s IH]; intros k st; simpl.
  - tauto.
  - rewrite IH. intuition congruence.
  - rewrite IH. intuition congruence.
Qed.

Lemma alookup_aremove_same : forall {V} k (m : list (string * V)), alookup k (aremove k m) = None.
Proof.
  intros V k m. induction m as [|[k' v] m IH]; simpl; [reflexivity|].
  destruct (String.eqb k k') eqn:E; [exact IH|]. simpl. now rewrite E.
Qed.

Lemma alookup_aremove_none : forall {V} k k' (m : list (string * V)),
  alookup k m = None -> alookup k (aremove k' m) = None.
Proof.
  intros V k k' m. induction m as [|[k'' v] m IH]; simpl; intros H; [reflexivity|].
  destruct (String.eqb k k'') eqn:E; [discriminate|].
  destruct (String.eqb k' k''); [now apply IH|]. simpl. rewrite E. now apply IH.
Qed.

Lemma alookup_fold_aremove : forall {V} ks k (m : list (string * V)),
  alookup k m = None -> alookup k (fold_left (fun acc k' => aremove k' acc) ks m) = None.
Proof.
  intros V ks. induction ks as [|k' ks IH]; intros k m H; simpl; [exact H|].
  apply IH. now apply alookup_aremove_none.
Qed.
End Clean.

Lemma evict_head : forall budget st0 k0 rest cur,
  exists ks c, ObjectStore.evict budget ((st0, k0) :: rest) cur = (k0 :: ks, c).
Proof.
  intros budget st0 k0 rest cur. simpl.
  destruct (ObjectStore.belowBudget _ _).
  - now exists [], (cur - ObjectStore.st_size st0).
  - destruct (ObjectStore.evict _ _ _) as [ks c]. now exists ks, c.
Qed.

Lemma atimeLe_trans : forall a b c, atimeLe a b -> atimeLe b c -> atimeLe a c.
Proof. unfold atimeLe. intros; lia. Qed.

(** C10: whenever the store holds an entry with an object file, [clean]
    removes at least one entry, whatever the budget: the first key removed
    is one with the oldest access time, and it is gone from the store. *)
Theorem C10_clean_removes_oldest : forall budget s k st,
  In (k, Some st) s ->
  exists k0 st0 rest,
    snd (fst (ObjectStore.clean budget s)) = k0 :: rest /\
    In (k0, Some st0) s /\
    (forall k' st', In (k', Some st') s -> ObjectStore.st_atime st0 <= ObjectStore.st_atime st') /\
    alookup k0 (snd (ObjectStore.clean budget s)) = None.
Proof.
  intros budget s k st Hin.
  pose proof (sortByAtime_perm (ObjectStore.objectInfos s)) as Hperm.
  pose proof (sortByAtime_sorted (ObjectStore.objectInfos s)) as Hsorted.
  unfold ObjectStore.clean.
  destruct (ObjectStore.sortByAtime (ObjectStore.objectInfos s)) as [|[st0 k0] rest] eqn:Hinfos.
  - exfalso. apply objectInfos_In in Hin.
    apply Permutation_sym in Hperm. exact (Permutation_in _ Hperm Hin).
  - destruct (evict_head budget st0 k0 rest (ObjectStore.sumSizes ((st0, k0) :: rest)))
      as (ks & c & Hev).
    rewrite Hev. simpl.
    exists k0, st0, ks. split; [reflexivity|]. split; [|split].
    + apply objectInfos_In. apply (Permutation_in _ Hperm). now left.
    + intros k' st' Hk'. apply objectInfos_In in Hk'.
      apply (Permutation_in _ (Permutation_sym Hperm)) in Hk'.
      apply Sorted_StronglySorted in Hsorted; [|exact atimeLe_trans].
      inversion Hsorted as [|? ? _ Hall]; subst.
      destruct Hk' as [Heq|Hk'].
      * injection Heq as -> ->. lia.
      * exact (proj1 (Forall_forall _ _) Hall _ Hk').
    + apply alookup_fold_aremove, alookup_aremove_same.
Qed.

Lemma C10_clean_removes_oldest_witness :
  exists k0 st0 rest,
    snd (fst (ObjectStore.clean 100 [("k1", Some (ObjectStore.mkObjStat 5 10));
                                     ("k2", Some (ObjectStore.mkObjStat 3 10))])) = k0 :: rest /\
    In (k0, Some st0) [("k1", Some (ObjectStore.mkObjStat 5 10));
                       ("k2", Some (ObjectStore.mkObjStat 3 10))] /\
    (forall k' st', In (k', Some st') [("k1", Some (ObjectStore.mkObjStat 5 10));
                                      ("k2", Some (ObjectStore.mkObjStat 3 10))] ->
                    ObjectStore.st_atime st0 <= ObjectStore.st_atime st') /\
    alookup k0 (snd (ObjectStore.clean 100 [("k1", Some (ObjectStore.mkObjStat 5 10));
                                            ("k2", Some (ObjectStore.mkObjStat 3 10))])) = None.
Proof.
  apply (C10_clean_removes_oldest 100 _ "k1" (ObjectStore.mkObjStat 5 10)).
  left. reflexivity.
Defined.

(** Already below the budget, [clean] still evicts the oldest entry. *)
Example clean_below_budget :
  ObjectStore.clean 100 [("k1", Some (ObjectStore.mkObjStat 5 10));
                         ("k2", Some (ObjectStore.mkObjStat 3 10))]
  = ((1, 10), ["k2"], [("k1", Some (ObjectStore.mkObjStat 5 10))]).
Proof. reflexivity. Qed.

(** ** Strings *)

Lemma substring_all : forall s m, (String.length s <= m)%nat -> substring 0 m s = s.
Proof.
  induction s as [|c s IH]; intros [|m] H; simpl in *; try reflexivity; try lia.
  f_equal. apply IH. lia.
Qed.

Lemma prefix_append_rest : forall a s m,
  String.prefix a s = true -> (String.length s <= String.length a + m)%nat ->
  String.append a (substring (String.length a) m s) = s.
Proof.
  induction a as [|c a IH]; intros s m Hp Hl; simpl in *.
  - apply substring_all. exact Hl.
  - destruct s as [|c' s]; simpl in Hp; [discriminate|].
    destruct (ascii_dec c c') as [E|E]; [subst c'|discriminate].
    simpl in Hl. f_equal. apply IH; [exact Hp | lia].
Qed.

Lemma prefix_append_self : forall a r, String.prefix a (String.append a r) = true.
Proof.
  induction a as [|c a IH]; intros r; simpl; [now destruct r|].
  destruct (ascii_dec c c); [apply IH | congruence].
Qed.

Lemma append_length : forall a b,
  String.length (String.append a b) = (String.length a + String.length b)%nat.
Proof. induction a as [|c a IH]; intros b; simpl; [reflexivity | now rewrite IH]. Qed.

Lemma append_assoc_str : forall a b c,
  String.append a (String.append b c) = String.append (String.append a b) c.
Proof. induction a as [|x a IH]; intros b c; simpl; [reflexivity | now rewrite IH]. Qed.

Lemma append_empty_r : forall a, String.append a "" = a.
Proof. induction a as [|x a IH]; simpl; [reflexivity | now rewrite IH]. Qed.

Lemma replaceFirst_prefix : forall old new s,
  String.prefix old s = true ->
  replaceFirst old new s = String.append new (substring (String.length old) (String.length s) s).
Proof. intros old new s H. destruct s; cbn [replaceFirst]; now rewrite H. Qed.

(** Collapsing with a prefix: ["?"] followed by the rest of the path. *)
Lemma collapse_prefix : forall bd p,
  startswith p bd = true ->
  collapseBasedirToPlaceholder (Some bd) p =
  String.append "?" (substring (String.length bd) (String.length p) p).
Proof.
  intros bd p H. unfold collapseBasedirToPlaceholder. rewrite H.
  now apply replaceFirst_prefix.
Qed.

Lemma expand_placeholder : forall bd r,
  bd <> "" ->
  expandBasedirPlaceholder (Some bd) (String.append "?" r) = inr (String.append bd r).
Proof.
  intros bd r Hbd. unfold expandBasedirPlaceholder, startswith, BASEDIR_REPLACEMENT.
  rewrite prefix_append_self.
  destruct bd as [|b bd]; [congruence|].
  rewrite replaceFirst_prefix by apply prefix_append_self.
  f_equal. f_equal. cbn [String.append String.length substring].
  apply substring_all. lia.
Qed.

(** X1: with a non-empty base directory, [expandBasedirPlaceholder] undoes
    [collapseBasedirToPlaceholder] on every path that lies under the base
    directory or does not start with the placeholder ['?']. *)
Theorem expand_collapse_roundtrip : forall bd p,
  bd <> "" ->
  startswith p bd = true \/ startswith p BASEDIR_REPLACEMENT = false ->
  expandBasedirPlaceholder (Some bd) (collapseBasedirToPlaceholder (Some bd) p) = inr p.
Proof.
  intros bd p Hbd [Hpre|Hq].
  - rewrite collapse_prefix by exact Hpre. rewrite expand_placeholder by exact Hbd.
    f_equal. apply prefix_append_rest; [exact Hpre | lia].
  - destruct (startswith p bd) eqn:Hpre.
    + rewrite collapse_prefix by exact Hpre. rewrite expand_placeholder by exact Hbd.
      f_equal. apply prefix_append_rest; [exact Hpre | lia].
    + unfold collapseBasedirToPlaceholder. rewrite Hpre.
      unfold expandBasedirPlaceholder. now rewrite Hq.
Qed.

Lemma expand_collapse_roundtrip_witness :
  expandBasedirPlaceholder (Some "C:\proj")
    (collapseBasedirToPlaceholder (Some "C:\proj") "C:\proj\src\a.h") = inr "C:\proj\src\a.h".
Proof. apply expand_collapse_roundtrip; [discriminate | left; reflexivity]. Defined.

(** X2: a base directory that normalizes to the empty string (the root
    ["\"]) makes [collapseBasedirToPlaceholder] put ['?'] in front of every
    path, and [expandBasedirPlaceholder] then raises [LogicException] on the
    result. *)
Theorem root_basedir_collapse_then_expand_raises : forall normcase p,
  normcase pathSep = pathSep ->
  let baseDir := normalizeBaseDir normcase (Some pathSep) in
  baseDir = Some "" /\
  collapseBasedirToPlaceholder baseDir p = String.append BASEDIR_REPLACEMENT p /\
  exists msg, expandBasedirPlaceholder baseDir (collapseBasedirToPlaceholder baseDir p)
              = inl (LogicException msg).
Proof.
  intros normcase p Hn baseDir.
  assert (Hb : baseDir = Some "").
  { unfold baseDir, normalizeBaseDir, pathSep in *. rewrite Hn. reflexivity. }
  assert (Hc : collapseBasedirToPlaceholder baseDir p = String.append BASEDIR_REPLACEMENT p).
  { rewrite Hb. unfold collapseBasedirToPlaceholder, startswith.
    replace (String.prefix "" p) with true by (destruct p; reflexivity).
    rewrite replaceFirst_prefix by (destruct p; reflexivity).
    f_equal. apply substring_all. lia. }
  split; [exact Hb|]. split; [exact Hc|].
  rewrite Hc, Hb. unfold expandBasedirPlaceholder, startswith.
  rewrite prefix_append_self. eexists. reflexivity.
Qed.

Lemma root_basedir_collapse_then_expand_raises_witness :
  normalizeBaseDir (fun s => s) (Some pathSep) = Some "" /\
  collapseBasedirToPlaceholder (normalizeBaseDir (fun s => s) (Some pathSep)) "a.h"
    = String.append BASEDIR_REPLACEMENT "a.h" /\
  exists msg, expandBasedirPlaceholder (normalizeBaseDir (fun s => s) (Some pathSep))
                (collapseBasedirToPlaceholder (normalizeBaseDir (fun s => s) (Some pathSep)) "a.h")
              = inl (LogicException msg).
Proof. exact (root_basedir_collapse_then_expand_raises (fun s => s) "a.h" eq_refl). Defined.

(** ** Budgets *)

Lemma fits_iff : forall n budget, ManifestStore.fits n budget = true <-> (inject_Z n <= budget)%Q.
Proof. intros n budget. unfold ManifestStore.fits. apply Qle_bool_iff. Qed.

Lemma belowBudget_iff : forall c budget,
  ObjectStore.belowBudget c budget = true <-> (inject_Z c < budget)%Q.
Proof.
  intros c budget. unfold ObjectStore.belowBudget. rewrite negb_true_iff.
  split; intros H.
  - apply Qnot_le_lt. intros Hle. apply Qle_bool_iff in Hle. congruence.
  - destruct (Qle_bool budget (inject_Z c)) eqn:E; [|reflexivity].
    apply Qle_bool_iff in E. exfalso. apply (Qlt_not_le _ _ H E).
Qed.

(** ** Manifest store clean *)

Section ManifestClean.
Import ObjectStore.

Lemma manifestFileInfos_In : forall fs p st,
  In (p, Some st) fs <-> In (st, p) (ManifestStore.manifestFileInfos fs).
Proof.
  induction fs as [|[p' [st'|]] fs IH]; intros p st; simpl.
  - tauto.
  - rewrite IH. intuition congruence.
  - rewrite IH. intuition congruence.
Qed.

Lemma insertByAtimeDesc_perm : forall x l, Permutation (ManifestStore.insertByAtimeDesc x l) (x :: l).
Proof.
  intros x l. induction l as [|y l IH]; simpl; [reflexivity|].
  destruct (Z.ltb (st_atime (fst y)) (st_atime (fst x))); [reflexivity|].
  rewrite IH. apply perm_swap.
Qed.

Lemma sortByAtimeDesc_perm : forall l, Permutation (ManifestStore.sortByAtimeDesc l) l.
Proof.
  intros l. unfold ManifestStore.sortByAtimeDesc.
  assert (H : forall acc, Permutation
                (fold_left (fun acc x => ManifestStore.insertByAtimeDesc x acc) l acc) (l ++ acc)).
  { induction l as [|x l IH]; intros acc; simpl; [reflexivity|].
    rewrite IH, insertByAtimeDesc_perm. apply Permutation_sym, Permutation_middle. }
  rewrite H. now rewrite app_nil_r.
Qed.

Lemma keepLoop_spec : forall budget infos rem r kept removed,
  ManifestStore.keepLoop budget infos rem = (r, kept, removed) ->
  (inject_Z rem <= budget)%Q ->
  (forall st p, In (st, p) infos -> 0 <= st_size st) ->
  (inject_Z r <= budget)%Q /\ rem <= r /\
  (forall p, In p removed -> exists st, In (st, p) infos /\ (budget < inject_Z (r + st_size st))%Q) /\
  Permutation (kept ++ removed) (map snd infos).
Proof.
  intros budget infos. induction infos as [|[st p] infos IH]; intros rem r kept removed Hk Hrem Hpos; simpl in Hk.
  - injection Hk as <- <- <-. split; [exact Hrem|]. split; [lia|]. split; [intros p []|]. reflexivity.
  - assert (Hst : 0 <= st_size st) by (apply (Hpos st p); now left).
    assert (Hpos' : forall st' p', In (st', p') infos -> 0 <= st_size st')
      by (intros st' p' H; apply (Hpos st' p'); now right).
    destruct (ManifestStore.fits (rem + st_size st) budget) eqn:Hfit.
    + destruct (ManifestStore.keepLoop budget infos (rem + st_size st)) as [[r' kept'] removed'] eqn:Hk'.
      injection Hk as <- <- <-.
      apply fits_iff in Hfit.
      destruct (IH _ _ _ _ Hk' Hfit Hpos') as (Hr & Hle & Hrm & Hperm).
      split; [exact Hr|]. split; [lia|]. split.
      * intros q Hq. destruct (Hrm q Hq) as (st' & Hin & Hlt). exists st'. split; [now right|exact Hlt].
      * simpl. now constructor.
    + destruct (ManifestStore.keepLoop budget infos rem) as [[r' kept'] removed'] eqn:Hk'.
      injection Hk as <- <- <-.
      destruct (IH _ _ _ _ Hk' Hrem Hpos') as (Hr & Hle & Hrm & Hperm).
      split; [exact Hr|]. split; [lia|]. split.
      * intros q [<-|Hq].
        -- exists st. split; [now left|].
           assert (Hlt0 : (budget < inject_Z (rem + st_size st))%Q).
           { apply Qnot_le_lt. intros Hle'. apply fits_iff in Hle'. congruence. }
           apply Qlt_le_trans with (1 := Hlt0). rewrite <- Zle_Qle. lia.
        -- destruct (Hrm q Hq) as (st' & Hin & Hlt). exists st'. split; [now right|exact Hlt].
      * simpl. rewrite <- Permutation_middle. now constructor.
Qed.
End ManifestClean.

Lemma alookup_aremove_other : forall {V} k k' (m : list (string * V)),
  k <> k' -> alookup k (aremove k' m) = alookup k m.
Proof.
  intros V k k' m Hne. induction m as [|[k'' v] m IH]; simpl; [reflexivity|].
  destruct (String.eqb k' k'') eqn:E1.
  - apply String.eqb_eq in E1. subst k''. apply String.eqb_neq in Hne. now rewrite Hne.
  - simpl. now rewrite IH.
Qed.

Lemma alookup_fold_aremove_spec : forall {V} ks k (m : list (string * V)),
  alookup k (fold_left (fun acc k' => aremove k' acc) ks m) =
  if existsb (String.eqb k) ks then None else alookup k m.
Proof.
  intros V ks. induction ks as [|k' ks IH]; intros k m; simpl; [reflexivity|].
  rewrite IH. destruct (String.eqb k k') eqn:E; simpl.
  - apply String.eqb_eq in E. subst k'. rewrite alookup_aremove_same.
    now destruct (existsb _ ks).
  - apply String.eqb_neq in E. now rewrite alookup_aremove_other.
Qed.

Lemma sumSizes_app : forall l1 l2,
  ObjectStore.sumSizes (l1 ++ l2) = ObjectStore.sumSizes l1 + ObjectStore.sumSizes l2.
Proof. induction l1 as [|x l1 IH]; intros l2; simpl; [reflexivity|]. rewrite IH. lia. Qed.

Lemma sumSizes_perm : forall l1 l2, Permutation l1 l2 -> ObjectStore.sumSizes l1 = ObjectStore.sumSizes l2.
Proof. intros l1 l2 H. induction H; simpl; lia. Qed.

(** X3: when the budget is not negative and no size is negative, the size
    [ManifestRepository.clean] returns is within the budget, and it only
    removes manifest files it could [os.stat], each of which would not fit
    in the budget on top of the size kept. *)
Theorem manifest_clean_within_budget : forall budget fs r removed fs',
  ManifestStore.clean budget fs = (r, removed, fs') ->
  (0 <= budget)%Q ->
  (forall p st, In (p, Some st) fs -> 0 <= ObjectStore.st_size st) ->
  (inject_Z r <= budget)%Q /\
  forall p, In p removed ->
    exists st, In (p, Some st) fs /\ (budget < inject_Z (r + ObjectStore.st_size st))%Q.
Proof.
  intros budget fs r removed fs' Hc H0 Hpos. unfold ManifestStore.clean in Hc.
  pose proof (sortByAtimeDesc_perm (ManifestStore.manifestFileInfos fs)) as Hperm.
  destruct (ManifestStore.keepLoop budget (ManifestStore.sortByAtimeDesc (ManifestStore.manifestFileInfos fs)) 0)
    as [[r' kept] removed'] eqn:Hk.
  injection Hc as <- <- _.
  assert (Hin : forall st p, In (st, p) (ManifestStore.sortByAtimeDesc (ManifestStore.manifestFileInfos fs)) ->
                             In (p, Some st) fs).
  { intros st p H. apply manifestFileInfos_In. exact (Permutation_in _ Hperm H). }
  destruct (keepLoop_spec _ _ _ _ _ _ Hk H0) as (Hr & _ & Hrm & _).
  - intros st p H. exact (Hpos p st (Hin st p H)).
  - split; [exact Hr|]. intros p Hp. destruct (Hrm p Hp) as (st & Hst & Hlt).
    exists st. split; [exact (Hin st p Hst)|exact Hlt].
Qed.

Lemma manifest_clean_within_budget_witness :
  let fs := [("m1", Some (ObjectStore.mkObjStat 1 6)); ("m2", Some (ObjectStore.mkObjStat 2 6))] in
  ManifestStore.clean 10 fs = (6, ["m1"], [("m2", Some (ObjectStore.mkObjStat 2 6))]) /\
  (inject_Z 6 <= 10)%Q /\
  forall p, In p ["m1"] ->
    exists st, In (p, Some st) fs /\ (10 < inject_Z (6 + ObjectStore.st_size st))%Q.
Proof.
  intros fs. split; [reflexivity|].
  apply (manifest_clean_within_budget 10 fs 6 ["m1"] [("m2", Some (ObjectStore.mkObjStat 2 6))]).
  - reflexivity.
  - unfold Qle. simpl. lia.
  - intros p st [E|[E|[]]]; injection E as _ <-; simpl; lia.
Defined.



Lemma keepLoop_all_fit : forall budget infos rem,
  (inject_Z (rem + ObjectStore.sumSizes infos) <= budget)%Q ->
  (forall st p, In (st, p) infos -> 0 <= ObjectStore.st_size st) ->
  ManifestStore.keepLoop budget infos rem = (rem + ObjectStore.sumSizes infos, map snd infos, []).
Proof.
  intros budget infos. induction infos as [|[st p] infos IH]; intros rem Hb Hpos; simpl in *.
  - f_equal. f_equal. lia.
  - assert (Hst : 0 <= ObjectStore.st_size st) by (apply (Hpos st p); now left).
    assert (Hrest : forall st' p', In (st', p') infos -> 0 <= ObjectStore.st_size st')
      by (intros st' p' H; apply (Hpos st' p'); now right).
    assert (Hsum : 0 <= ObjectStore.sumSizes infos).
    { clear -Hrest. induction infos as [|[st' p'] infos IH]; simpl; [lia|].
      assert (0 <= ObjectStore.st_size st') by (apply (Hrest st' p'); now left).
      assert (0 <= ObjectStore.sumSizes infos) by (apply IH; intros; eapply Hrest; right; eassumption).
      lia. }
    assert (Hfit : ManifestStore.fits (rem + ObjectStore.st_size st) budget = true).
    { apply fits_iff. eapply Qle_trans; [|exact Hb]. rewrite <- Zle_Qle. lia. }
    rewrite Hfit. rewrite IH.
    + do 2 f_equal. lia.
    + replace (rem + ObjectStore.st_size st + ObjectStore.sumSizes infos)
        with (rem + (ObjectStore.st_size st + ObjectStore.sumSizes infos)) by lia. exact Hb.
    + exact Hrest.
Qed.

(** X5: when all manifest files together fit in the budget (and no size
    is negative), [ManifestRepository.clean] removes nothing and returns
    their total size. *)
Theorem manifest_clean_all_fit : forall budget fs,
  (inject_Z (ObjectStore.sumSizes (ManifestStore.manifestFileInfos fs)) <= budget)%Q ->
  (forall p st, In (p, Some st) fs -> 0 <= ObjectStore.st_size st) ->
  ManifestStore.clean budget fs = (ObjectStore.sumSizes (ManifestStore.manifestFileInfos fs), [], fs).
Proof.
  intros budget fs Hb Hpos. unfold ManifestStore.clean.
  pose proof (sortByAtimeDesc_perm (ManifestStore.manifestFileInfos fs)) as Hperm.
  rewrite keepLoop_all_fit.
  - simpl. f_equal. f_equal. now rewrite (sumSizes_perm _ _ Hperm).
  - now rewrite (sumSizes_perm _ _ Hperm).
  - intros st p H. apply (Hpos p st). apply manifestFileInfos_In. exact (Permutation_in _ Hperm H).
Qed.

Lemma manifest_clean_all_fit_witness :
  ManifestStore.clean 20 [("m1", Some (ObjectStore.mkObjStat 1 6)); ("m2", None);
                          ("m3", Some (ObjectStore.mkObjStat 2 6))]
  = (12, [], [("m1", Some (ObjectStore.mkObjStat 1 6)); ("m2", None);
              ("m3", Some (ObjectStore.mkObjStat 2 6))]).
Proof.
  apply (manifest_clean_all_fit 20).
  - unfold Qle. simpl. lia.
  - intros p st [E|[E|[E|[]]]]; try discriminate; injection E as _ <-; simpl; lia.
Defined.

(** ** Object store clean *)

Lemma evict_spec : forall budget infos cur,
  exists n, (n <= List.length infos)%nat /\
    ObjectStore.evict budget infos cur =
      (map snd (firstn n infos), cur - ObjectStore.sumSizes (firstn n infos)) /\
    (infos <> [] -> (1 <= n)%nat) /\
    (n = List.length infos \/
     ObjectStore.belowBudget (cur - ObjectStore.sumSizes (firstn n infos)) budget = true) /\
    (forall m, (1 <= m < n)%nat ->
       ObjectStore.belowBudget (cur - ObjectStore.sumSizes (firstn m infos)) budget = false).
Proof.
  intros budget infos. induction infos as [|[st k] rest IH]; intros cur.
  - exists O. simpl. split; [lia|]. split; [f_equal; lia|]. split; [congruence|].
    split; [now left|]. intros m Hm. lia.
  - simpl. destruct (ObjectStore.belowBudget (cur - ObjectStore.st_size st) budget) eqn:Hb.
    + exists 1%nat. simpl. split; [lia|]. split; [f_equal; lia|]. split; [intros; lia|].
      split; [right; now replace (cur - (ObjectStore.st_size st + 0)) with (cur - ObjectStore.st_size st) by lia|].
      intros m Hm. lia.
    + destruct (IH (cur - ObjectStore.st_size st)) as (n & Hn & Hev & _ & Hstop & Hmin).
      rewrite Hev. exists (S n). simpl. split; [lia|]. split; [f_equal; lia|].
      split; [intros; lia|]. split.
      * destruct Hstop as [->|Hstop]; [now left|right].
        now replace (cur - (ObjectStore.st_size st + ObjectStore.sumSizes (firstn n rest)))
          with (cur - ObjectStore.st_size st - ObjectStore.sumSizes (firstn n rest)) by lia.
      * intros [|[|m]] Hm; [lia| |].
        -- simpl. now replace (cur - (ObjectStore.st_size st + 0)) with (cur - ObjectStore.st_size st) by lia.
        -- replace (ObjectStore.sumSizes (firstn (S (S m)) ((st, k) :: rest)))
             with (ObjectStore.st_size st + ObjectStore.sumSizes (firstn (S m) rest)) by reflexivity.
           replace (cur - (ObjectStore.st_size st + ObjectStore.sumSizes (firstn (S m) rest)))
             with (cur - ObjectStore.st_size st - ObjectStore.sumSizes (firstn (S m) rest)) by lia.
           apply Hmin. lia.
Qed.

Lemma sumSizes_firstn_skipn : forall n l,
  ObjectStore.sumSizes l = ObjectStore.sumSizes (firstn n l) + ObjectStore.sumSizes (skipn n l).
Proof. intros n l. rewrite <- sumSizes_app. now rewrite firstn_skipn. Qed.

(** X6: [CompilerArtifactsRepository.clean] removes the [n] entries with
    the oldest access times (at least one when there is any), and the count
    and size it returns are those of the entries that remain; the removed
    keys are gone from the store and every other key is left as it was. *)
Theorem objects_clean_accounting : forall budget s count size removed s',
  ObjectStore.clean budget s = ((count, size), removed, s') ->
  let infos := ObjectStore.sortByAtime (ObjectStore.objectInfos s) in
  exists n,
    (infos <> [] -> (1 <= n)%nat) /\
    removed = map snd (firstn n infos) /\
    count = Z.of_nat (List.length (skipn n infos)) /\
    size = ObjectStore.sumSizes (skipn n infos) /\
    forall k, alookup k s' = if existsb (String.eqb k) removed then None else alookup k s.
Proof.
  intros budget s count size removed s' Hc infos. unfold ObjectStore.clean in Hc. fold infos in Hc.
  destruct (evict_spec budget infos (ObjectStore.sumSizes infos)) as (n & Hn & Hev & Hne & _ & _).
  rewrite Hev in Hc. injection Hc as <- <- <- <-.
  exists n. split; [exact Hne|]. split; [reflexivity|]. split.
  - rewrite length_map, length_firstn, length_skipn. lia.
  - split.
    + rewrite (sumSizes_firstn_skipn n infos) at 1. lia.
    + intros k. apply alookup_fold_aremove_spec.
Qed.

(** X7: [CompilerArtifactsRepository.clean] stops as soon as the remaining
    size is below the budget: either every entry is removed or the size it
    returns is below the budget, and removing fewer of the oldest entries
    (but at least one) would not have brought the size below it. *)
Theorem objects_clean_stops_first_below : forall budget s count size removed s',
  ObjectStore.clean budget s = ((count, size), removed, s') ->
  let infos := ObjectStore.sortByAtime (ObjectStore.objectInfos s) in
  (List.length removed = List.length infos \/ (inject_Z size < budget)%Q) /\
  forall m, (1 <= m < List.length removed)%nat ->
    ~ (inject_Z (ObjectStore.sumSizes (skipn m infos)) < budget)%Q.
Proof.
  intros budget s count size removed s' Hc infos. unfold ObjectStore.clean in Hc. fold infos in Hc.
  destruct (evict_spec budget infos (ObjectStore.sumSizes infos)) as (n & Hn & Hev & _ & Hstop & Hmin).
  rewrite Hev in Hc. injection Hc as <- <- <- <-.
  rewrite length_map, length_firstn. replace (Nat.min n (List.length infos)) with n by lia.
  split.
  - destruct Hstop as [Hall|Hb]; [now left|right]. now apply belowBudget_iff.
  - intros m Hm Hlt. apply belowBudget_iff in Hlt.
    rewrite (sumSizes_firstn_skipn m infos) in Hmin.
    specialize (Hmin m Hm).
    replace (ObjectStore.sumSizes (firstn m infos) + ObjectStore.sumSizes (skipn m infos)
             - ObjectStore.sumSizes (firstn m infos)) with (ObjectStore.sumSizes (skipn m infos)) in Hmin by lia.
    congruence.
Qed.

Lemma keepLoop_le_budget : forall budget infos rem,
  (inject_Z rem <= budget)%Q ->
  (inject_Z (fst (fst (ManifestStore.keepLoop budget infos rem))) <= budget)%Q.
Proof.
  intros budget infos. induction infos as [|[st p] infos IH]; intros rem H; simpl; [exact H|].
  destruct (ManifestStore.fits (rem + ObjectStore.st_size st) budget) eqn:Hfit.
  - apply fits_iff in Hfit. specialize (IH _ Hfit).
    destruct (ManifestStore.keepLoop _ _ _) as [[r kept] removed]. exact IH.
  - specialize (IH _ H). destruct (ManifestStore.keepLoop _ _ _) as [[r kept] removed]. exact IH.
Qed.

(** X8: when the cache has reached [maximumSize] (a positive size),
    [CacheFileStrategy.clean] leaves a recorded cache size below 90% of
    [maximumSize]: it frees at least 10%. *)
Theorem cacheClean_frees_ten_percent : forall maximumSize s,
  0 < maximumSize <= Stats.CacheSize (CacheClean.stats s) ->
  (inject_Z (Stats.CacheSize (CacheClean.stats (CacheClean.clean maximumSize s)))
   < inject_Z maximumSize * (9 # 10))%Q.
Proof.
  intros maximumSize s [Hpos Hge]. unfold CacheClean.clean.
  replace (Z.ltb (Stats.CacheSize (CacheClean.stats s)) maximumSize) with false
    by (symmetry; apply Z.ltb_ge; lia).
  set (overall := (inject_Z maximumSize * (9 # 10))%Q).
  set (man := (overall * (1 # 10))%Q).
  assert (HM : (0 < inject_Z maximumSize)%Q) by (change 0%Q with (inject_Z 0); rewrite <- Zlt_Qlt; exact Hpos).
  destruct (ManifestStore.clean man (CacheClean.manifests s)) as [[r removedM] man'] eqn:Hm.
  assert (Hr : (inject_Z r <= man)%Q).
  { unfold ManifestStore.clean in Hm.
    pose proof (keepLoop_le_budget man
      (ManifestStore.sortByAtimeDesc (ManifestStore.manifestFileInfos (CacheClean.manifests s))) 0) as H.
    destruct (ManifestStore.keepLoop _ _ _) as [[r' kept] removed'].
    injection Hm as <- _ _. apply H. unfold man, overall. change (inject_Z 0) with 0%Q. lra. }
  destruct (ObjectStore.clean (overall - man) (CacheClean.objects s))
    as [[[count size] removed] obj'] eqn:Ho.
  assert (Hs : size = 0 \/ (inject_Z size < overall - man)%Q).
  { unfold ObjectStore.clean in Ho.
    set (infos := ObjectStore.sortByAtime (ObjectStore.objectInfos (CacheClean.objects s))) in Ho.
    destruct (evict_spec (overall - man) infos (ObjectStore.sumSizes infos)) as (n & Hn & Hev & _ & Hstop & _).
    rewrite Hev in Ho. injection Ho as _ <- _ _.
    destruct Hstop as [Hall|Hb].
    - left. rewrite (sumSizes_firstn_skipn n infos) at 1.
      rewrite Hall, skipn_all. simpl. lia.
    - right. now apply belowBudget_iff. }
  simpl. rewrite inject_Z_plus.
  destruct Hs as [->|Hs].
  - unfold man, overall in *. change (inject_Z 0) with 0%Q. lra.
  - unfold man, overall in *. lra.
Qed.

Lemma cacheClean_frees_ten_percent_witness :
  (inject_Z (Stats.CacheSize (CacheClean.stats (CacheClean.clean 100
     (CacheClean.mkState (Stats.setCacheSize 120 Stats.zero)
        [("m1", Some (ObjectStore.mkObjStat 1 20))]
        [("k1", Some (ObjectStore.mkObjStat 5 60)); ("k2", Some (ObjectStore.mkObjStat 3 40))]))))
   < inject_Z 100 * (9 # 10))%Q.
Proof. apply cacheClean_frees_ten_percent. simpl. lia. Defined.

(** ** Writing and reading cache entries *)

Lemma alookup_aset_same : forall {V} k (v : V) m, alookup k (aset k v m) = Some v.
Proof. intros. unfold aset. simpl. now rewrite String.eqb_refl. Qed.

Lemma alookup_aset_other : forall {V} k k' (v : V) m, k <> k' -> alookup k (aset k' v m) = alookup k m.
Proof.
  intros V k k' v m Hne. unfold aset. simpl.
  destruct (String.eqb k k') eqn:E; [apply String.eqb_eq in E; congruence|].
  now apply alookup_aremove_other.
Qed.

Lemma ensure_fresh_dir : forall d fs,
  ObjectStore.files (ObjectStore.ensureDirectoryExists d (ObjectStore.rmtree d fs)) = ObjectStore.files fs /\
  alookup d (ObjectStore.dirs (ObjectStore.ensureDirectoryExists d (ObjectStore.rmtree d fs))) = Some [] /\
  forall d', d' <> d ->
    alookup d' (ObjectStore.dirs (ObjectStore.ensureDirectoryExists d (ObjectStore.rmtree d fs)))
    = alookup d' (ObjectStore.dirs fs).
Proof.
  intros d fs. unfold ObjectStore.ensureDirectoryExists, ObjectStore.rmtree.
  cbn [ObjectStore.files ObjectStore.dirs].
  rewrite alookup_aremove_same. cbn [ObjectStore.files ObjectStore.dirs]. split; [reflexivity|]. split.
  - apply alookup_aset_same.
  - intros d' Hne. rewrite alookup_aset_other by exact Hne. now apply alookup_aremove_other.
Qed.

Lemma writeFile_spec : forall d name c fs fl,
  alookup d (ObjectStore.dirs fs) = Some fl ->
  ObjectStore.files (ObjectStore.writeFile d name c fs) = ObjectStore.files fs /\
  alookup d (ObjectStore.dirs (ObjectStore.writeFile d name c fs)) = Some (aset name c fl) /\
  forall d', d' <> d ->
    alookup d' (ObjectStore.dirs (ObjectStore.writeFile d name c fs)) = alookup d' (ObjectStore.dirs fs).
Proof.
  intros d name c fs fl H. unfold ObjectStore.writeFile. rewrite H. cbn [ObjectStore.files ObjectStore.dirs].
  split; [reflexivity|]. split; [apply alookup_aset_same|].
  intros d' Hne. now apply alookup_aset_other.
Qed.

Lemma append_new_neq : forall key, key <> String.append key ".new".
Proof.
  intros key E. apply (f_equal String.length) in E. rewrite append_length in E. simpl in E. lia.
Qed.

(** X9: storing an entry under a fresh key with an object file that exists
    returns the size of the bytes stored, and [getEntry] then gives back the
    object path in the entry and the stored stdout and stderr (an empty
    stderr, which is not written, reads back as ['']); the object bytes are
    in the entry, no [key.new] directory is left and no other entry
    changes. *)
Theorem setEntry_getEntry_roundtrip : forall storedForm key src c out err fs r fs',
  alookup key (ObjectStore.dirs fs) = None ->
  alookup src (ObjectStore.files fs) = Some c ->
  ObjectStore.setEntry storedForm key (mkCompilerArtifacts (Some src) out err) fs = (r, fs') ->
  r = inr (Z.of_nat (String.length (storedForm c))) /\
  EntryRead.getEntry key fs' =
    inr (mkCompilerArtifacts (Some (EntryRead.joinPath key ObjectStore.OBJECT_FILE)) out err) /\
  (exists fl, alookup key (ObjectStore.dirs fs') = Some fl /\
              alookup ObjectStore.OBJECT_FILE fl = Some (storedForm c)) /\
  alookup (String.append key ".new") (ObjectStore.dirs fs') = None /\
  forall d, d <> key -> d <> String.append key ".new" ->
    alookup d (ObjectStore.dirs fs') = alookup d (ObjectStore.dirs fs).
Proof.
  intros storedForm key src c out err fs r fs' Hkey Hsrc H.
  pose proof (append_new_neq key) as Hne.
  unfold ObjectStore.setEntry in H. cbn [objectFilePath stdout stderr] in H.
  set (tmp := String.append key ".new") in *.
  set (fs1 := ObjectStore.ensureDirectoryExists tmp (ObjectStore.rmtree tmp fs)) in *.
  destruct (ensure_fresh_dir tmp fs) as (F1 & D1 & O1). fold fs1 in F1, D1, O1.
  rewrite F1, Hsrc in H.
  set (fs2 := ObjectStore.writeFile tmp ObjectStore.OBJECT_FILE (storedForm c) fs1) in *.
  destruct (writeFile_spec tmp ObjectStore.OBJECT_FILE (storedForm c) fs1 [] D1) as (F2 & D2 & O2).
  fold fs2 in F2, D2, O2.
  set (fs3 := ObjectStore.writeFile tmp ObjectStore.STDOUT_FILE out fs2) in *.
  destruct (writeFile_spec tmp ObjectStore.STDOUT_FILE out fs2 _ D2) as (F3 & D3 & O3).
  fold fs3 in F3, D3, O3.
  set (fs4 := if String.eqb err "" then fs3 else ObjectStore.writeFile tmp ObjectStore.STDERR_FILE err fs3) in *.
  assert (H4 : ObjectStore.files fs4 = ObjectStore.files fs /\
               (exists fl4, alookup tmp (ObjectStore.dirs fs4) = Some fl4 /\
                  alookup ObjectStore.OBJECT_FILE fl4 = Some (storedForm c) /\
                  EntryRead.getCachedCompilerConsoleOutput fl4 ObjectStore.STDOUT_FILE = out /\
                  EntryRead.getCachedCompilerConsoleOutput fl4 ObjectStore.STDERR_FILE = err) /\
               forall d, d <> tmp -> alookup d (ObjectStore.dirs fs4) = alookup d (ObjectStore.dirs fs)).
  { unfold fs4. destruct (String.eqb err "") eqn:Eerr.
    - apply String.eqb_eq in Eerr. subst err. split; [congruence|]. split.
      + eexists. split; [exact D3|]. split; [|split]; reflexivity.
      + intros d Hd. rewrite O3, O2, O1 by exact Hd. reflexivity.
    - destruct (writeFile_spec tmp ObjectStore.STDERR_FILE err fs3 _ D3) as (F4 & D4 & O4).
      split; [congruence|]. split.
      + eexists. split; [exact D4|]. split; [|split]; reflexivity.
      + intros d Hd. rewrite O4, O3, O2, O1 by exact Hd. reflexivity. }
  clearbody fs4. destruct H4 as (F4 & (fl4 & D4 & Obj4 & Out4 & Err4) & O4).
  unfold ObjectStore.osReplace in H.
  rewrite (O4 key Hne), Hkey, D4 in H. injection H as <- <-.
  split; [reflexivity|]. split; [|split; [|split]].
  - unfold EntryRead.getEntry. cbn [ObjectStore.files ObjectStore.dirs]. rewrite alookup_aset_same. now rewrite Out4, Err4.
  - exists fl4. cbn [ObjectStore.files ObjectStore.dirs]. split; [apply alookup_aset_same|exact Obj4].
  - cbn [ObjectStore.files ObjectStore.dirs]. rewrite alookup_aset_other by (intros E; apply Hne; now rewrite E).
    apply alookup_aremove_same.
  - intros d Hd1 Hd2. cbn [ObjectStore.files ObjectStore.dirs]. rewrite alookup_aset_other by exact Hd1.
    rewrite alookup_aremove_other by exact Hd2. now apply O4.
Qed.

Lemma write_outputs_other : forall tmp out err fs fl,
  alookup tmp (ObjectStore.dirs fs) = Some fl ->
  let fs3 := ObjectStore.writeFile tmp ObjectStore.STDOUT_FILE out fs in
  let fs4 := if String.eqb err "" then fs3 else ObjectStore.writeFile tmp ObjectStore.STDERR_FILE err fs3 in
  forall d, d <> tmp -> alookup d (ObjectStore.dirs fs4) = alookup d (ObjectStore.dirs fs).
Proof.
  intros tmp out err fs fl H fs3 fs4 d Hd.
  destruct (writeFile_spec tmp ObjectStore.STDOUT_FILE out fs fl H) as (_ & D3 & O3).
  fold fs3 in D3, O3. unfold fs4. destruct (String.eqb err "").
  - now apply O3.
  - destruct (writeFile_spec tmp ObjectStore.STDERR_FILE err fs3 _ D3) as (_ & _ & O4).
    rewrite O4 by exact Hd. now apply O3.
Qed.

(** X10: [setEntry] never replaces an entry that already exists: it then
    raises (from [os.replace], or [FileNotFoundError] for a missing object
    file) and the entry directory [key] is left as it was. *)
Theorem setEntry_keeps_existing_entry : forall storedForm key artifacts fs r fs',
  alookup key (ObjectStore.dirs fs) <> None ->
  ObjectStore.setEntry storedForm key artifacts fs = (r, fs') ->
  (exists e, r = inl e) /\ alookup key (ObjectStore.dirs fs') = alookup key (ObjectStore.dirs fs).
Proof.
  intros storedForm key artifacts fs r fs' Hkey H.
  pose proof (append_new_neq key) as Hne.
  destruct (alookup key (ObjectStore.dirs fs)) as [fl0|] eqn:Hk; [clear Hkey|congruence].
  unfold ObjectStore.setEntry in H.
  set (tmp := String.append key ".new") in *.
  set (fs1 := ObjectStore.ensureDirectoryExists tmp (ObjectStore.rmtree tmp fs)) in *.
  destruct (ensure_fresh_dir tmp fs) as (F1 & D1 & O1). fold fs1 in F1, D1, O1.
  destruct (objectFilePath artifacts) as [src|].
  - rewrite F1 in H. destruct (alookup src (ObjectStore.files fs)) as [c|].
    + set (fs2 := ObjectStore.writeFile tmp ObjectStore.OBJECT_FILE (storedForm c) fs1) in *.
      destruct (writeFile_spec tmp ObjectStore.OBJECT_FILE (storedForm c) fs1 [] D1) as (_ & D2 & O2).
      fold fs2 in D2, O2.
      pose proof (write_outputs_other tmp (stdout artifacts) (stderr artifacts) fs2 _ D2) as O4.
      cbv zeta in O4.
      set (fs4 := if String.eqb (stderr artifacts) "" then _ else _) in H, O4.
      unfold ObjectStore.osReplace in H.
      assert (E : alookup key (ObjectStore.dirs fs4) = Some fl0) by (rewrite O4, O2, O1; auto).
      rewrite E in H. injection H as <- <-. split; [now eexists|exact E].
    + injection H as <- <-. split; [now eexists|]. rewrite O1 by exact Hne. exact Hk.
  - pose proof (write_outputs_other tmp (stdout artifacts) (stderr artifacts) fs1 _ D1) as O4.
    cbv zeta in O4.
    set (fs4 := if String.eqb (stderr artifacts) "" then _ else _) in H, O4.
    unfold ObjectStore.osReplace in H.
    assert (E : alookup key (ObjectStore.dirs fs4) = Some fl0) by (rewrite O4, O1; auto).
    rewrite E in H. injection H as <- <-. split; [now eexists|exact E].
Qed.

(** ** Manifest touch *)

Lemma findIndexFrom_absent : forall h es,
  Forall (fun e => objectHash e <> h) es -> Manifest.findIndexFrom h es = None.
Proof.
  intros h es H. induction H as [|e es He _ IH]; simpl; [reflexivity|].
  apply String.eqb_neq in He. now rewrite He, IH.
Qed.

(** X11: [touchEntry] with an [objectHash] no entry has raises [IndexError]
    on an empty manifest ([pop(0)] of an empty list) and otherwise leaves the
    manifest as it is (the default index 0 moves the first entry to the
    front). *)
Theorem touchEntry_absent_hash : forall h es,
  Forall (fun e => objectHash e <> h) es ->
  Manifest.touchEntry h es = match es with [] => inl IndexError | _ :: _ => inr es end.
Proof.
  intros h es H. unfold Manifest.touchEntry, Manifest.findIndex.
  rewrite (findIndexFrom_absent h es H). now destruct es.
Qed.

Lemma touchEntry_absent_hash_witness :
  Manifest.touchEntry "zz" [sampleEntry 1; sampleEntry 2] = inr [sampleEntry 1; sampleEntry 2].
Proof.
  apply (touchEntry_absent_hash "zz" [sampleEntry 1; sampleEntry 2]).
  repeat constructor; discriminate.
Defined.

(** ** Job count *)

Lemma allDigits_substring : forall s n m,
  JobCount.allDigits s = true -> JobCount.allDigits (substring n m s) = true.
Proof.
  induction s as [|c s IH]; intros [|n] [|m] H; simpl in *; try reflexivity.
  - apply andb_true_iff in H. apply andb_true_iff. split; [apply H|]. apply IH, H.
  - apply IH. apply andb_true_iff in H. apply H.
  - apply IH. apply andb_true_iff in H. apply H.
Qed.

Lemma isDigit_not_space : forall c, JobCount.isDigit c = true -> JobCount.isSpace c = false.
Proof.
  intros c H. unfold JobCount.isDigit, JobCount.isSpace in *. cbv zeta in *.
  apply andb_true_iff in H. destruct H as [H1 H2].
  apply Nat.leb_le in H1. apply Nat.leb_le in H2.
  apply orb_false_iff. split; apply andb_false_iff.
  - right. apply Nat.leb_gt. lia.
  - right. apply Nat.leb_gt. lia.
Qed.

Lemma lstrip_digits : forall s,
  JobCount.allDigits s = true -> JobCount.lstrip s = s.
Proof.
  intros [|c s] H; simpl; [reflexivity|].
  apply andb_true_iff in H. now rewrite isDigit_not_space by apply H.
Qed.

Lemma rev_string_rev_string : forall s acc t,
  JobCount.rev_string (JobCount.rev_string s acc) t = JobCount.rev_string acc (String.append s t).
Proof. induction s as [|c s IH]; intros acc t; simpl; [reflexivity|]. now rewrite IH. Qed.

Lemma rev_string_digits : forall s acc,
  JobCount.allDigits s = true -> JobCount.allDigits acc = true ->
  JobCount.allDigits (JobCount.rev_string s acc) = true.
Proof.
  induction s as [|c s IH]; intros acc Hs Hacc; simpl in *; [exact Hacc|].
  apply andb_true_iff in Hs. apply IH; [apply Hs|]. simpl. now rewrite (proj1 Hs).
Qed.

Lemma strip_digits : forall s, JobCount.allDigits s = true -> JobCount.strip s = s.
Proof.
  intros s H. unfold JobCount.strip.
  rewrite (lstrip_digits s H).
  rewrite lstrip_digits by (apply rev_string_digits; [exact H|reflexivity]).
  rewrite rev_string_rev_string. simpl. apply append_empty_r.
Qed.

Lemma digitsValue_digits : forall d b acc,
  JobCount.allDigits d = true -> (d <> "" \/ b = true) ->
  JobCount.digitsValue b acc d = Some (decimalValueAcc acc d).
Proof.
  induction d as [|c d IH]; intros b acc H Hne; simpl in *.
  - destruct Hne as [Hne| ->]; [congruence|reflexivity].
  - apply andb_true_iff in H. destruct H as [Hc Hd]. rewrite Hc. apply IH; [exact Hd|now right].
Qed.

Lemma decimalValueAcc_nonneg : forall d acc, 0 <= acc -> 0 <= decimalValueAcc acc d.
Proof. induction d as [|c d IH]; intros acc H; cbn [decimalValueAcc]; [exact H|]. apply IH. lia. Qed.

Lemma pyInt_digits : forall d,
  d <> "" -> JobCount.allDigits d = true -> JobCount.pyInt d = inr (decimalValue d).
Proof.
  intros d Hne H. unfold JobCount.pyInt. rewrite (strip_digits d H).
  unfold decimalValue. pose proof (digitsValue_digits d false 0 H (or_introl Hne)) as Hv.
  destruct d as [|c d]; [congruence|].
  simpl in H. apply andb_true_iff in H. destruct H as [Hc _].
  destruct c as [[] [] [] [] [] [] [] []]; try discriminate Hc;
    cbv beta iota in Hv |- *; rewrite Hv; reflexivity.
Qed.

Lemma mpMatch_digits : forall d, JobCount.allDigits d = true -> JobCount.mpMatch (String.append "/MP" d) = true.
Proof.
  intros d H. unfold JobCount.mpMatch. rewrite prefix_append_self. simpl.
  rewrite substring_all by lia.
  unfold JobCount.dropFinalNewline.
  destruct (_ && _); [apply allDigits_substring|]; exact H.
Qed.

Lemma filter_mp_last : forall l1 x l2,
  JobCount.mpMatch x = true -> Forall (fun a => JobCount.mpMatch a = false) l2 ->
  rev (filter JobCount.mpMatch (l1 ++ x :: l2)) = x :: rev (filter JobCount.mpMatch l1).
Proof.
  intros l1 x l2 Hx Hl2. rewrite filter_app. simpl. rewrite Hx.
  assert (E : filter JobCount.mpMatch l2 = []).
  { induction Hl2 as [|a l Ha _ IH]; simpl; [reflexivity|]. now rewrite Ha. }
  rewrite E, rev_app_distr. reflexivity.
Qed.

(** X12: the last [/MP<n>] switch with a non-empty run of digits sets the
    job count to the decimal value of its digits, whatever comes before it. *)
Theorem jobCount_last_numeric_switch : forall cpu_count l1 d l2,
  d <> "" -> JobCount.allDigits d = true ->
  Forall (fun a => JobCount.mpMatch a = false) l2 ->
  JobCount.jobCount cpu_count (l1 ++ String.append "/MP" d :: l2) = inr (decimalValue d) /\
  0 <= decimalValue d.
Proof.
  intros cpu_count l1 d l2 Hne Hd Hl2. split.
  - unfold JobCount.jobCount. rewrite (filter_mp_last l1 _ l2 (mpMatch_digits d Hd) Hl2).
    cbn [String.length String.append substring]. replace (S (S (S (String.length d))) - 3)%nat with (String.length d) by lia. rewrite substring_all by lia.
    replace (negb (String.eqb d "")) with true
      by (symmetry; apply negb_true_iff, String.eqb_neq; exact Hne).
    now apply pyInt_digits.
  - apply decimalValueAcc_nonneg. lia.
Qed.

Lemma jobCount_last_numeric_switch_witness :
  JobCount.jobCount None (["/MP2"; "/c"] ++ String.append "/MP" "16" :: ["a.cpp"]) = inr (decimalValue "16") /\
  0 <= decimalValue "16".
Proof.
  apply (jobCount_last_numeric_switch None ["/MP2"; "/c"] "16" ["a.cpp"]).
  - discriminate.
  - reflexivity.
  - repeat constructor.
Defined.

(** X13: without any [/MP] switch [jobCount] is 1; when the last one is a
    bare [/MP], it is the number of CPUs, or 2 when
    [multiprocessing.cpu_count()] raises [NotImplementedError]. *)
Theorem jobCount_default_and_bare_switch : forall cpu_count l1 l2,
  Forall (fun a => JobCount.mpMatch a = false) l2 ->
  JobCount.jobCount cpu_count l2 = inr 1 /\
  JobCount.jobCount cpu_count (l1 ++ "/MP" :: l2) =
    inr (match cpu_count with Some n => n | None => 2 end).
Proof.
  intros cpu_count l1 l2 Hl2. split.
  - unfold JobCount.jobCount.
    assert (E : filter JobCount.mpMatch l2 = []).
    { induction Hl2 as [|a l Ha _ IH]; simpl; [reflexivity|]. now rewrite Ha. }
    now rewrite E.
  - unfold JobCount.jobCount. rewrite (filter_mp_last l1 "/MP" l2 eq_refl Hl2). simpl. now destruct cpu_count.
Qed.

Lemma jobCount_default_and_bare_switch_witness :
  JobCount.jobCount (Some 8) ["/c"; "a.cpp"] = inr 1 /\
  JobCount.jobCount (Some 8) (["/MP4"] ++ "/MP" :: ["/c"; "a.cpp"]) = inr 8.
Proof. apply (jobCount_default_and_bare_switch (Some 8) ["/MP4"] ["/c"; "a.cpp"]). repeat constructor. Defined.

(** ** Response-file tokenizer *)

Section TokenizerProps.
Import Tokenizer.

Lemma span_spec : forall s n r,
  spanBackslashes s = (n, r) ->
  s = String.append (backslashes n) r /\ (String.length r <= String.length s)%nat.
Proof.
  induction s as [|c s IH]; intros n r H; simpl in H.
  - injection H as <- <-. simpl. split; [reflexivity|lia].
  - destruct (Ascii.eqb c backslashChar) eqn:E.
    + destruct (spanBackslashes s) as [n' r'] eqn:Hs. injection H as <- <-.
      apply Ascii.eqb_eq in E. subst c. destruct (IH _ _ eq_refl) as [-> Hl].
      simpl. split; [reflexivity|]. lia.
    + injection H as <- <-. split; reflexivity.
Qed.

Lemma noQuote_append : forall a b, noQuote (String.append a b) = noQuote a && noQuote b.
Proof. induction a as [|c a IH]; intros b; simpl; [reflexivity|]. rewrite IH. now rewrite andb_assoc. Qed.

Lemma splitAux_backslashes : forall n r tok,
  splitAux (String.append (backslashes n) r) tok = splitAux r (String.append tok (backslashes n)).
Proof.
  induction n as [|n IH]; intros r tok; simpl.
  - now rewrite append_empty_r.
  - rewrite IH. unfold charStr. now rewrite <- append_assoc_str.
Qed.

Lemma backslashes_nonempty : forall tok n, String.append tok (backslashes (S n)) <> "".
Proof. intros [|c tok] n; simpl; discriminate. Qed.

Lemma append_char_nonempty : forall tok c, String.append tok (charStr c) <> "".
Proof. intros [|x tok] c; simpl; discriminate. Qed.

Lemma run_backslash : forall f st tok argv rest n r,
  st = Initial \/ st = Unquoted ->
  spanBackslashes (String backslashChar rest) = (n, r) ->
  noQuote r = true ->
  run (S f) st tok argv (String backslashChar rest) =
  run f Unquoted (String.append tok (backslashes n)) argv r.
Proof.
  intros f st tok argv rest n r Hst Hsp Hq.
  destruct Hst as [->| ->]; cbn [run]; cbv zeta; rewrite Hsp;
    (destruct r as [|q r']; [reflexivity|]);
    simpl in Hq; apply andb_true_iff in Hq; destruct Hq as [Hq _];
    apply negb_true_iff in Hq; rewrite Hq; reflexivity.
Qed.

Lemma run_noQuote : forall fuel s st tok argv,
  (String.length s <= fuel)%nat -> noQuote s = true ->
  (st = Initial /\ tok = "") \/ (st = Unquoted /\ tok <> "") ->
  run fuel st tok argv s = argv ++ splitAux s tok.
Proof.
  induction fuel as [|f IH]; intros s st tok argv Hl Hq Hst.
  - destruct s; [|simpl in Hl; lia]. cbn [run splitAux].
    destruct (String.eqb tok ""); [now rewrite app_nil_r|reflexivity].
  - destruct s as [|c rest].
    + cbn [run splitAux]. destruct (String.eqb tok ""); [now rewrite app_nil_r|reflexivity].
    + simpl in Hl. pose proof Hq as Hq0. simpl in Hq. apply andb_true_iff in Hq. destruct Hq as [Hc Hrest].
      apply negb_true_iff in Hc.
      destruct (Ascii.eqb c backslashChar) eqn:Hb.
      * apply Ascii.eqb_eq in Hb. subst c.
        destruct (spanBackslashes rest) as [n r] eqn:Hsp'.
        assert (Hsp : spanBackslashes (String backslashChar rest) = (S n, r))
          by (simpl; rewrite Hsp'; reflexivity).
        destruct (span_spec _ _ _ Hsp') as [Hs Hlr].
        assert (Hqr : noQuote r = true).
        { rewrite Hs, noQuote_append in Hrest. apply andb_true_iff in Hrest. apply Hrest. }
        rewrite run_backslash with (n := S n) (r := r).
        -- rewrite IH.
           ++ f_equal. rewrite Hs. change (String backslashChar (String.append (backslashes n) r))
                with (String.append (backslashes (S n)) r).
              now rewrite splitAux_backslashes.
           ++ lia.
           ++ exact Hqr.
           ++ right. split; [reflexivity|]. apply backslashes_nonempty.
        -- destruct Hst as [[-> _]|[-> _]]; auto.
        -- exact Hsp.
        -- exact Hqr.
      * destruct Hst as [[-> ->]|[-> Htok]].
        -- cbn [run splitAux]. unfold isspace in *.
           destruct (JobCount.isSpace c) eqn:Hsp.
           ++ apply IH; [lia|exact Hrest|left; auto].
           ++ rewrite Hc, Hb. apply IH; [lia|exact Hrest|right; split; [reflexivity|apply append_char_nonempty]].
        -- cbn [run splitAux]. unfold isspace in *.
           destruct (JobCount.isSpace c) eqn:Hsp.
           ++ apply String.eqb_neq in Htok. rewrite Htok. rewrite IH; [|lia|exact Hrest|left; auto].
              now rewrite <- app_assoc.
           ++ rewrite Hc, Hb. apply IH; [lia|exact Hrest|right; split; [reflexivity|apply append_char_nonempty]].
Qed.
End TokenizerProps.

(** X14: on a response file without double quotes, [splitCommandsFile]
    splits at whitespace exactly like Python's [str.split()]; backslashes
    are then kept as they are. *)
Theorem splitCommandsFile_without_quotes : forall content,
  Tokenizer.noQuote content = true ->
  Tokenizer.splitCommandsFile content = Tokenizer.pySplit content.
Proof.
  intros content H. unfold Tokenizer.splitCommandsFile, Tokenizer.pySplit.
  rewrite run_noQuote; [reflexivity|lia|exact H|left; auto].
Qed.

Lemma splitCommandsFile_without_quotes_witness :
  Tokenizer.splitCommandsFile "/c  \foo.cpp -IC:\inc\" = ["/c"; "\foo.cpp"; "-IC:\inc\"].
Proof. rewrite splitCommandsFile_without_quotes by reflexivity. reflexivity. Defined.

Section TokenizerQuoted.
Import Tokenizer.

Lemma run_argv_prefix : forall fuel st tok argv1 argv2 s,
  run fuel st tok (argv1 ++ argv2) s = argv1 ++ run fuel st tok argv2 s.
Proof.
  induction fuel as [|f IH]; intros st tok argv1 argv2 s; cbn [run].
  - destruct (String.eqb tok ""); [reflexivity|]. now rewrite app_assoc.
  - destruct s as [|c rest].
    + destruct (String.eqb tok ""); [reflexivity|]. now rewrite app_assoc.
    + cbv zeta. destruct (spanBackslashes (String c rest)) as [n r].
      destruct st;
        repeat match goal with
               | |- context [if ?b then _ else _] => destruct b
               | |- context [match ?r with EmptyString => _ | String _ _ => _ end] => destruct r
               end;
        rewrite ?IH; rewrite ?app_assoc; reflexivity.
Qed.

Lemma run_quoted_plain : forall s f tok argv more,
  plainText s = true ->
  run (String.length s + S f) Quoted tok argv (String.append s (String quoteChar more)) =
  run f Unquoted (String.append tok s) argv more.
Proof.
  induction s as [|c s IH]; intros f tok argv more H.
  - simpl. now rewrite append_empty_r.
  - simpl in H. apply andb_true_iff in H. destruct H as [H Hs].
    apply andb_true_iff in H. destruct H as [Hq Hb].
    apply negb_true_iff in Hq. apply negb_true_iff in Hb.
    cbn [String.length String.append Nat.add run]. rewrite Hq, Hb.
    rewrite IH by exact Hs. unfold charStr. now rewrite <- append_assoc_str.
Qed.
End TokenizerQuoted.

(** X15: an argument in double quotes that has no backslash is one argument,
    whitespace included, when whitespace follows it; this holds for an
    empty [""] as well, which gives an empty argument. *)
Theorem splitCommandsFile_quoted_argument : forall s c rest,
  Tokenizer.plainText s = true -> Tokenizer.isspace c = true ->
  Tokenizer.splitCommandsFile
    (String Tokenizer.quoteChar (String.append s (String Tokenizer.quoteChar (String c rest))))
  = s :: Tokenizer.splitCommandsFile rest.
Proof.
  intros s c rest Hs Hc. unfold Tokenizer.splitCommandsFile.
  replace (String.length (String Tokenizer.quoteChar
             (String.append s (String Tokenizer.quoteChar (String c rest)))))
    with (S (String.length s + S (S (String.length rest))))
    by (cbn [String.length]; rewrite append_length; cbn [String.length]; lia).
  cbn [Tokenizer.run]. cbv zeta.
  replace (Tokenizer.isspace Tokenizer.quoteChar) with false by reflexivity.
  replace (Ascii.eqb Tokenizer.quoteChar Tokenizer.quoteChar) with true by reflexivity.
  rewrite run_quoted_plain by exact Hs.
  cbn [Tokenizer.run]. rewrite Hc.
  apply (run_argv_prefix _ _ _ [s] []).
Qed.

(** ** Scheduling *)

Lemma consumeResults_all_zero : forall rs c,
  Forall (fun r => match r with (ec, _, _, _) => ec = 0 end) rs ->
  Schedule.consumeResults rs 0 c =
  (0, c || existsb (fun r => match r with (_, _, _, dc) => dc end) rs,
   map (fun r => match r with (_, out, err, _) => (out, err) end) rs).
Proof.
  intros rs c H. revert c. induction H as [|[[[ec out] err] dc] rs Hec _ IH]; intros c; simpl.
  - now rewrite orb_false_r.
  - subst ec. simpl. rewrite IH. now rewrite orb_assoc.
Qed.

(** X16: when every job exits with 0, the scheduling loop prints every
    job's output, returns exit code 0, and asks for a cache clean exactly
    when some job did. *)
Theorem scheduleResults_all_succeed : forall rs,
  Forall (fun r => match r with (ec, _, _, _) => ec = 0 end) rs ->
  Schedule.scheduleResults rs =
  (0, existsb (fun r => match r with (_, _, _, dc) => dc end) rs,
   map (fun r => match r with (_, out, err, _) => (out, err) end) rs).
Proof. intros rs H. unfold Schedule.scheduleResults. now rewrite consumeResults_all_zero. Qed.

Lemma scheduleResults_all_succeed_witness :
  Schedule.scheduleResults [(0, "a.cpp", "", false); (0, "b.cpp", "", true)] =
  (0, true, [("a.cpp", ""); ("b.cpp", "")]).
Proof. rewrite scheduleResults_all_succeed by (repeat constructor). reflexivity. Defined.

(** X17: the scheduling loop stops at the first job with a non-zero exit
    code: it returns that exit code, has printed the outputs up to and
    including that job's and nothing after, and asks for a cache clean when
    one of those jobs did. *)
Theorem scheduleResults_first_failure : forall ok ec out err dc rest,
  Forall (fun r => match r with (ec, _, _, _) => ec = 0 end) ok ->
  ec <> 0 ->
  Schedule.scheduleResults (ok ++ (ec, out, err, dc) :: rest) =
  (ec, existsb (fun r => match r with (_, _, _, dc) => dc end) ok || dc,
   map (fun r => match r with (_, out, err, _) => (out, err) end) ok ++ [(out, err)]).
Proof.
  intros ok ec out err dc rest H Hec. unfold Schedule.scheduleResults.
  assert (G : forall c, Schedule.consumeResults (ok ++ (ec, out, err, dc) :: rest) 0 c =
    (ec, c || existsb (fun r => match r with (_, _, _, dc) => dc end) ok || dc,
     map (fun r => match r with (_, out, err, _) => (out, err) end) ok ++ [(out, err)])).
  { induction H as [|[[[ec' out'] err'] dc'] ok Hec' _ IH]; intros c; simpl.
    - apply Z.eqb_neq in Hec. rewrite Hec. simpl. now rewrite orb_false_r.
    - subst ec'. simpl. rewrite IH. now rewrite !orb_assoc. }
  now rewrite G.
Qed.

Lemma scheduleResults_first_failure_witness :
  Schedule.scheduleResults ([(0, "a.cpp", "", true)] ++ (2, "b.cpp", "error C2065", false) :: [(0, "c.cpp", "", false)]) =
  (2, existsb (fun r => match r with (_, _, _, dc) => dc end) [(0, "a.cpp", "", true)] || false,
   map (fun r => match r with (_, out, err, _) => (out, err) end) [(0, "a.cpp", "", true)] ++ [("b.cpp", "error C2065")]).
Proof. apply scheduleResults_first_failure; [repeat constructor | discriminate]. Defined.

Lemma jobCount_no_mp : forall cpu_count l,
  Forall (fun a => JobCount.mpMatch a = false) l -> JobCount.jobCount cpu_count l = inr 1.
Proof.
  intros cpu_count l H. unfold JobCount.jobCount.
  assert (E : filter JobCount.mpMatch l = []).
  { induction H as [|a l Ha _ IH]; simpl; [reflexivity|]. now rewrite Ha. }
  now rewrite E.
Qed.

(** X18: every job command line [scheduleJobs] builds is the common base
    (the command line without the source files, the [/Tc], [/Tp], [-Tc],
    [-Tp] arguments and the [/MP] switches) followed by one source with its
    language prefix; so, when no source argument starts with [/MP], each job
    has a [jobCount] of 1. *)
Theorem jobCmdLines_single_jobs : forall cpu_count cmdLine sourceFiles objectFiles line obj,
  Forall (fun sf => startswith (String.append (snd sf) (fst sf)) "/MP" = false) sourceFiles ->
  In (line, obj) (Schedule.jobCmdLines cmdLine sourceFiles objectFiles) ->
  (exists srcFile srcLanguage,
     In (srcFile, srcLanguage) sourceFiles /\
     line = Schedule.baseCmdLine cmdLine sourceFiles ++ [String.append srcLanguage srcFile]) /\
  (forall a, In a (Schedule.baseCmdLine cmdLine sourceFiles) ->
     In a cmdLine /\ ~ In a (map fst sourceFiles) /\ Schedule.skippedArg a = false /\
     startswith a "/MP" = false) /\
  JobCount.jobCount cpu_count line = inr 1.
Proof.
  intros cpu_count cmdLine sourceFiles objectFiles line obj Hsrc Hin.
  unfold Schedule.jobCmdLines in Hin. apply in_map_iff in Hin.
  destruct Hin as [[[srcFile srcLanguage] objFile] [Heq Hc]].
  injection Heq as <- _.
  apply in_combine_l in Hc.
  assert (Hbase : forall a, In a (Schedule.baseCmdLine cmdLine sourceFiles) ->
     In a cmdLine /\ ~ In a (map fst sourceFiles) /\ Schedule.skippedArg a = false /\
     startswith a "/MP" = false).
  { intros a Ha. unfold Schedule.baseCmdLine, Schedule.filterSourceFiles in Ha.
    apply filter_In in Ha. destruct Ha as [Ha Hmp]. apply filter_In in Ha. destruct Ha as [Ha Hsf].
    apply negb_true_iff in Hmp. apply negb_true_iff, orb_false_iff in Hsf. destruct Hsf as [Hex Hsk].
    split; [exact Ha|]. split; [|split; [exact Hsk|exact Hmp]].
    intros Hm. assert (Hx : existsb (String.eqb a) (map fst sourceFiles) = true).
    { apply existsb_exists. exists a. split; [exact Hm|apply String.eqb_refl]. }
    congruence. }
  split; [|split; [exact Hbase|]].
  - exists srcFile, srcLanguage. split; [exact Hc|reflexivity].
  - apply jobCount_no_mp. apply Forall_app. split.
    + apply Forall_forall. intros a Ha. destruct (Hbase a Ha) as (_ & _ & _ & Hmp).
      unfold JobCount.mpMatch. unfold startswith in Hmp. now rewrite Hmp.
    + constructor; [|constructor].
      rewrite Forall_forall in Hsrc. specialize (Hsrc _ Hc). simpl in Hsrc.
      unfold JobCount.mpMatch. unfold startswith in Hsrc. now rewrite Hsrc.
Qed.

(** ** The no-direct path *)

Section NoDirectProps.
Variable invokeRealCompiler : list string -> (Z * string * string) * option string.
Variable decodeMbcs : string -> string.
Variable compilerHash : string.
Variable md5 : string -> string.
Variable normalizedCommandLine : list string -> list string.
Variable maximumCacheSize : Z.

Lemma computeKeyNodirect_ok : forall cmdLine st pp ppErr ppObj,
  invokeRealCompiler (NoDirect.ppCommandLine cmdLine) = ((0, pp, ppErr), ppObj) ->
  NoDirect.computeKeyNodirect invokeRealCompiler decodeMbcs compilerHash md5 normalizedCommandLine cmdLine st =
  (inr (md5 (String.append compilerHash
               (String.append (joinWith " " (normalizedCommandLine cmdLine)) pp))), st).
Proof. intros cmdLine st pp ppErr ppObj H. unfold NoDirect.computeKeyNodirect. now rewrite H. Qed.

(** X19: in the no-direct mode, a cache hit registers one hit and nothing
    else in the statistics, copies the cached object to the object file,
    returns exit code 0 with the cached stdout and stderr and no clean
    request, and leaves the cache entries as they were. *)
Theorem noDirect_cache_hit : forall objectFile cmdLine st pp ppErr ppObj obj out err,
  invokeRealCompiler (NoDirect.ppCommandLine cmdLine) = ((0, pp, ppErr), ppObj) ->
  alookup (md5 (String.append compilerHash
                 (String.append (joinWith " " (normalizedCommandLine cmdLine)) pp)))
          (NoDirect.cacheEntries st) = Some (obj, out, err) ->
  NoDirect.processSingleSource invokeRealCompiler decodeMbcs compilerHash md5
    normalizedCommandLine maximumCacheSize objectFile cmdLine st =
  (inr (0, out, err, false),
   NoDirect.mkCacheState (NoDirect.cacheEntries st) (Stats.registerCacheHit (NoDirect.stats st))
     (aset objectFile obj (NoDirect.workFiles st))).
Proof.
  intros objectFile cmdLine st pp ppErr ppObj obj out err Hpp Hkey.
  unfold NoDirect.processSingleSource, NoDirect.catch, NoDirect.processNoDirect, NoDirect.bind.
  rewrite (computeKeyNodirect_ok cmdLine st pp ppErr ppObj Hpp).
  unfold NoDirect.hasEntry, NoDirect.bind, NoDirect.get, NoDirect.ret. rewrite Hkey.
  unfold NoDirect.processCacheHit, NoDirect.updateStats, NoDirect.modify, NoDirect.bind,
    NoDirect.get, NoDirect.put, NoDirect.ret. simpl. now rewrite Hkey.
Qed.


(** X21: in the no-direct mode, a miss whose compilation exits with a
    non-zero code never adds a cache entry: the entries are unchanged, only
    the miss is registered, and the compiler's exit code and decoded output
    are returned without a clean request. *)
Theorem noDirect_failed_compile_not_cached : forall objectFile cmdLine st pp ppErr ppObj rc out err obj,
  invokeRealCompiler (NoDirect.ppCommandLine cmdLine) = ((0, pp, ppErr), ppObj) ->
  alookup (md5 (String.append compilerHash
                 (String.append (joinWith " " (normalizedCommandLine cmdLine)) pp)))
          (NoDirect.cacheEntries st) = None ->
  invokeRealCompiler cmdLine = ((rc, out, err), obj) ->
  rc <> 0 ->
  exists workFiles',
    NoDirect.processSingleSource invokeRealCompiler decodeMbcs compilerHash md5
      normalizedCommandLine maximumCacheSize objectFile cmdLine st =
    (inr (rc, decodeMbcs out, decodeMbcs err, false),
     NoDirect.mkCacheState (NoDirect.cacheEntries st) (Stats.registerCacheMiss (NoDirect.stats st))
       workFiles').
Proof.
  intros objectFile cmdLine st pp ppErr ppObj rc out err obj Hpp Hkey Hcc Hrc.
  unfold NoDirect.processSingleSource, NoDirect.catch, NoDirect.processNoDirect, NoDirect.bind.
  rewrite (computeKeyNodirect_ok cmdLine st pp ppErr ppObj Hpp).
  unfold NoDirect.hasEntry, NoDirect.bind, NoDirect.get, NoDirect.ret. rewrite Hkey.
  unfold NoDirect.compile. rewrite Hcc.
  apply Z.eqb_neq in Hrc.
  destruct obj as [o|]; unfold NoDirect.ensureArtifactsExist, NoDirect.hasEntry, NoDirect.updateStats,
    NoDirect.modify, NoDirect.bind, NoDirect.get, NoDirect.put, NoDirect.ret; simpl;
    rewrite Hkey; simpl.
  - rewrite String.eqb_refl; simpl; rewrite ?Hrc; eexists; reflexivity.
  - destruct (alookup objectFile (NoDirect.workFiles st)); simpl; rewrite ?Hrc; eexists; reflexivity.
Qed.
End NoDirectProps.

Lemma objects_clean_accounting_witness :
  let infos := ObjectStore.sortByAtime (ObjectStore.objectInfos
    [("k1", Some (ObjectStore.mkObjStat 5 10)); ("k2", Some (ObjectStore.mkObjStat 3 10)); ("k3", None)]) in
  exists n,
    (infos <> [] -> (1 <= n)%nat) /\
    ["k2"] = map snd (firstn n infos) /\
    1 = Z.of_nat (List.length (skipn n infos)) /\
    10 = ObjectStore.sumSizes (skipn n infos) /\
    forall k, alookup k [("k1", Some (ObjectStore.mkObjStat 5 10)); ("k3", None)] =
      if existsb (String.eqb k) ["k2"] then None
      else alookup k [("k1", Some (ObjectStore.mkObjStat 5 10)); ("k2", Some (ObjectStore.mkObjStat 3 10)); ("k3", None)].
Proof.
  exact (objects_clean_accounting 15%Q
           [("k1", Some (ObjectStore.mkObjStat 5 10)); ("k2", Some (ObjectStore.mkObjStat 3 10)); ("k3", None)]
           1 10 ["k2"] [("k1", Some (ObjectStore.mkObjStat 5 10)); ("k3", None)] eq_refl).
Defined.

Lemma objects_clean_stops_first_below_witness :
  let infos := ObjectStore.sortByAtime (ObjectStore.objectInfos
    [("k1", Some (ObjectStore.mkObjStat 5 10)); ("k2", Some (ObjectStore.mkObjStat 3 10)); ("k3", None)]) in
  (List.length ["k2"] = List.length infos \/ (inject_Z 10 < 15)%Q) /\
  forall m, (1 <= m < List.length ["k2"])%nat ->
    ~ (inject_Z (ObjectStore.sumSizes (skipn m infos)) < 15)%Q.
Proof.
  exact (objects_clean_stops_first_below 15%Q
           [("k1", Some (ObjectStore.mkObjStat 5 10)); ("k2", Some (ObjectStore.mkObjStat 3 10)); ("k3", None)]
           1 10 ["k2"] [("k1", Some (ObjectStore.mkObjStat 5 10)); ("k3", None)] eq_refl).
Defined.

Lemma setEntry_getEntry_roundtrip_witness :
  let res := ObjectStore.setEntry (fun c => c) "k" (mkCompilerArtifacts (Some "a.obj") "o" "")
               (ObjectStore.mkFsys [("a.obj", "OBJ")] [("j", [])]) in
  fst res = inr 3 /\
  EntryRead.getEntry "k" (snd res) =
    inr (mkCompilerArtifacts (Some (EntryRead.joinPath "k" ObjectStore.OBJECT_FILE)) "o" "") /\
  (exists fl, alookup "k" (ObjectStore.dirs (snd res)) = Some fl /\
              alookup ObjectStore.OBJECT_FILE fl = Some "OBJ") /\
  alookup (String.append "k" ".new") (ObjectStore.dirs (snd res)) = None /\
  forall d, d <> "k" -> d <> String.append "k" ".new" ->
    alookup d (ObjectStore.dirs (snd res)) = alookup d [("j", [])].
Proof.
  intros res.
  exact (setEntry_getEntry_roundtrip (fun c => c) "k" "a.obj" "OBJ" "o" ""
           (ObjectStore.mkFsys [("a.obj", "OBJ")] [("j", [])]) (fst res) (snd res)
           eq_refl eq_refl eq_refl).
Defined.

Lemma setEntry_keeps_existing_entry_witness :
  let res := ObjectStore.setEntry (fun c => c) "k" (mkCompilerArtifacts (Some "a.obj") "o" "")
               (ObjectStore.mkFsys [("a.obj", "OBJ")] [("k", [("object", "OLD")])]) in
  (exists e, fst res = inl e) /\
  alookup "k" (ObjectStore.dirs (snd res)) = Some [("object", "OLD")].
Proof.
  intros res.
  exact (setEntry_keeps_existing_entry (fun c => c) "k" (mkCompilerArtifacts (Some "a.obj") "o" "")
           (ObjectStore.mkFsys [("a.obj", "OBJ")] [("k", [("object", "OLD")])]) (fst res) (snd res)
           ltac:(discriminate) eq_refl).
Defined.

Lemma splitCommandsFile_quoted_argument_witness :
  Tokenizer.splitCommandsFile
    (String Tokenizer.quoteChar (String.append "a b" (String Tokenizer.quoteChar (String " "%char "/c"))))
  = "a b" :: Tokenizer.splitCommandsFile "/c".
Proof. exact (splitCommandsFile_quoted_argument "a b" " "%char "/c" eq_refl eq_refl). Defined.

Lemma jobCmdLines_single_jobs_witness :
  (exists srcFile srcLanguage,
     In (srcFile, srcLanguage) [("a.cpp", ""); ("b.cpp", "/Tp")] /\
     ["/c"; "a.cpp"] = Schedule.baseCmdLine ["/c"; "/MP2"; "a.cpp"; "b.cpp"] [("a.cpp", ""); ("b.cpp", "/Tp")]
                        ++ [String.append srcLanguage srcFile]) /\
  (forall a, In a (Schedule.baseCmdLine ["/c"; "/MP2"; "a.cpp"; "b.cpp"] [("a.cpp", ""); ("b.cpp", "/Tp")]) ->
     In a ["/c"; "/MP2"; "a.cpp"; "b.cpp"] /\ ~ In a (map fst [("a.cpp", ""); ("b.cpp", "/Tp")]) /\
     Schedule.skippedArg a = false /\ startswith a "/MP" = false) /\
  JobCount.jobCount (Some 4) ["/c"; "a.cpp"] = inr 1.
Proof.
  apply (jobCmdLines_single_jobs (Some 4) ["/c"; "/MP2"; "a.cpp"; "b.cpp"] [("a.cpp", ""); ("b.cpp", "/Tp")]
           ["a.obj"; "b.obj"] ["/c"; "a.cpp"] "a.obj").
  - repeat constructor.
  - left. reflexivity.
Defined.

Lemma noDirect_cache_hit_witness :
  NoDirect.processSingleSource
    (fun cmd => if String.eqb (hd "" cmd) "/EP" then ((0, "pp", ""), None) else ((0, "o2", "e2"), Some "NEW"))
    (fun s => s) "h" (fun s => s) (fun l => l) 100 "a.obj" ["/c"; "a.cpp"]
    (NoDirect.mkCacheState [("h/c a.cpppp", ("OBJ", "o", "e"))] Stats.zero [])
  = (inr (0, "o", "e", false),
     NoDirect.mkCacheState [("h/c a.cpppp", ("OBJ", "o", "e"))] (Stats.registerCacheHit Stats.zero)
       (aset "a.obj" "OBJ" [])).
Proof.
  exact (noDirect_cache_hit
    (fun cmd => if String.eqb (hd "" cmd) "/EP" then ((0, "pp", ""), None) else ((0, "o2", "e2"), Some "NEW"))
    (fun s => s) "h" (fun s => s) (fun l => l) 100 "a.obj" ["/c"; "a.cpp"]
    (NoDirect.mkCacheState [("h/c a.cpppp", ("OBJ", "o", "e"))] Stats.zero [])
    "pp" "" None "OBJ" "o" "e" eq_refl eq_refl).
Defined.


Lemma noDirect_failed_compile_not_cached_witness :
  exists workFiles',
    NoDirect.processSingleSource
      (fun cmd => if String.eqb (hd "" cmd) "/EP" then ((0, "pp", ""), None) else ((2, "o2", "e2"), Some "NEW"))
      (fun s => s) "h" (fun s => s) (fun l => l) 100 "a.obj" ["/c"; "a.cpp"]
      (NoDirect.mkCacheState [] Stats.zero [])
    = (inr (2, "o2", "e2", false),
       NoDirect.mkCacheState [] (Stats.registerCacheMiss Stats.zero) workFiles').
Proof.
  exact (noDirect_failed_compile_not_cached
    (fun cmd => if String.eqb (hd "" cmd) "/EP" then ((0, "pp", ""), None) else ((2, "o2", "e2"), Some "NEW"))
    (fun s => s) "h" (fun s => s) (fun l => l) 100 "a.obj" ["/c"; "a.cpp"]
    (NoDirect.mkCacheState [] Stats.zero []) "pp" "" None 2 "o2" "e2" (Some "NEW")
    eq_refl eq_refl eq_refl ltac:(discriminate)).
Defined.

(** ** Manifest entry creation *)


Lemma getFileHashes_ok : forall fileHash paths,
  (forall p, In p paths -> fileHash p <> None) ->
  exists hs, getFileHashes fileHash paths = inr hs /\ map Some hs = map fileHash paths.
Proof.
  intros fileHash paths. induction paths as [|p ps IH]; intros H; simpl.
  - exists []. split; reflexivity.
  - destruct (fileHash p) as [h|] eqn:Hp; [|exfalso; exact (H p (or_introl eq_refl) Hp)].
    destruct IH as [hs [Hr Hm]]; [intros q Hq; apply H; right; exact Hq|].
    rewrite Hr. exists (h :: hs). split; [reflexivity|]. simpl. now rewrite Hm.
Qed.


(** X23: when every include path can be hashed, [createManifestEntry]
    returns the entry whose include files are the sorted distinct paths with
    the basedir collapsed, whose [includesContentHash] is the md5 of their
    content hashes joined by commas (in the same order), and whose
    [objectHash] is the md5 of the manifest hash followed by it. *)
Theorem createManifestEntry_ok : forall md5 fileHash baseDir manifestHash includePaths,
  (forall p, In p includePaths -> fileHash p <> None) ->
  exists hs,
    map Some hs = map fileHash (sortedSet includePaths) /\
    createManifestEntry md5 fileHash baseDir manifestHash includePaths =
      inr (mkManifestEntry (map (collapseBasedirToPlaceholder baseDir) (sortedSet includePaths))
             (md5 (joinWith "," hs))
             (md5 (String.append manifestHash (md5 (joinWith "," hs))))).
Proof.
  intros md5 fileHash baseDir manifestHash includePaths H.
  destruct (getFileHashes_ok fileHash (sortedSet includePaths)) as [hs [Hr Hm]].
  { intros p Hp. apply H. apply sortedSet_In. exact Hp. }
  exists hs. split; [exact Hm|]. unfold createManifestEntry. rewrite Hr. reflexivity.
Qed.

Lemma createManifestEntry_ok_witness :
  exists hs,
    map Some hs = map (fun p => if String.eqb p "a.h" then Some "A" else Some "B") (sortedSet ["b.h"; "a.h"; "b.h"]) /\
    createManifestEntry (fun s => s) (fun p => if String.eqb p "a.h" then Some "A" else Some "B") None "m"
      ["b.h"; "a.h"; "b.h"] =
      inr (mkManifestEntry (map (collapseBasedirToPlaceholder None) (sortedSet ["b.h"; "a.h"; "b.h"]))
             (joinWith "," hs) (String.append "m" (joinWith "," hs))).
Proof.
  exact (createManifestEntry_ok (fun s => s) (fun p => if String.eqb p "a.h" then Some "A" else Some "B")
           None "m" ["b.h"; "a.h"; "b.h"]
           ltac:(intros p _; cbv beta; destruct (String.eqb p "a.h"); discriminate)).
Defined.

(** ** Statistics bookkeeping *)

Lemma run_cons : forall c cs s, Stats.run (c :: cs) s = Stats.run cs (Stats.step c s).
Proof. reflexivity. Qed.

(** X24: over any sequence of statistics calls, [CacheSize] changes only by
    the sizes registered and unregistered, and [CacheEntries] by one per
    registered or unregistered entry, unless [setCacheSize] (resp.
    [setNumCacheEntries]) is called; [resetCounters] keeps both. *)
Theorem stats_cache_bookkeeping : forall cs s,
  (Forall (fun c => setsCacheSize c = false) cs ->
   Stats.CacheSize (Stats.run cs s) = Stats.CacheSize s + fold_right Z.add 0 (map sizeChange cs)) /\
  (Forall (fun c => setsNumCacheEntries c = false) cs ->
   Stats.CacheEntries (Stats.run cs s) = Stats.CacheEntries s + fold_right Z.add 0 (map entriesChange cs)).
Proof.
  induction cs as [|c cs IH]; intros s.
  - simpl. split; intros _; lia.
  - rewrite run_cons. cbn [map fold_right].
    split; intros Hf; inversion Hf as [|? ? Hc Hcs]; subst.
    + rewrite (proj1 (IH _) Hcs). destruct c; simpl in Hc; try discriminate; cbn -[Z.add Z.sub Z.opp]; lia.
    + rewrite (proj2 (IH _) Hcs). destruct c; simpl in Hc; try discriminate; cbn -[Z.add Z.sub Z.opp]; lia.
Qed.

Lemma stats_cache_bookkeeping_witness :
  Stats.CacheSize (Stats.run [Stats.RegisterCacheEntry 10; Stats.RegisterCacheHit; Stats.ResetCounters;
                              Stats.UnregisterCacheEntry 4] Stats.zero) = 6 /\
  Stats.CacheEntries (Stats.run [Stats.RegisterCacheEntry 10; Stats.RegisterCacheHit; Stats.ResetCounters;
                                 Stats.UnregisterCacheEntry 4] Stats.zero) = 0.
Proof.
  destruct (stats_cache_bookkeeping [Stats.RegisterCacheEntry 10; Stats.RegisterCacheHit; Stats.ResetCounters;
                                     Stats.UnregisterCacheEntry 4] Stats.zero) as [H1 H2].
  split; [rewrite H1 | rewrite H2]; try reflexivity; repeat constructor.
Defined.
